(** * WebChat: a shallow embedding of the chat backend (Hono edge function
    over a key-value table) and of the client's message rendering helpers. *)

From Stdlib Require Import ZArith Ascii String Sorted Permutation.
From stdpp Require Import base gmap strings list fin_maps pretty.

#[local] Set Warnings "-register-all".
Open Scope Z_scope.

(** ** JavaScript values as they travel through the backend.
    Integer numbers are [JNum]: every number the backend computes or
    compares (Date.now(), view counters, lastSeen) is an integer.  The one
    non-integer number in the backend, the default [panelOpacity: 0.85],
    is a [JFloat] kept as its literal; integer arithmetic on it is outside
    the model. *)
Inductive jsval : Type :=
  | JUndefined
  | JNull
  | JBool (b : bool)
  | JNum (n : Z)
  | JFloat (literal : string)
  | JStr (s : string)
  | JArr (xs : list jsval)
  | JObj (fs : list (string * jsval)).

(** Property lookup in an object's own properties (first occurrence). *)
Fixpoint assoc_get (fs : list (string * jsval)) (k : string) : jsval :=
  match fs with
  | [] => JUndefined
  | (k', v) :: r => if String.eqb k' k then v else assoc_get r k
  end.

(** [o.k] on a value that is neither null nor undefined: plain JSON
    objects have own properties; the other values have none of the
    property names the backend reads. *)
Definition prop (o : jsval) (k : string) : jsval :=
  match o with
  | JObj fs => assoc_get fs k
  | _ => JUndefined
  end.

(** Property assignment [o.k = v] / a later key in an object literal:
    an existing key keeps its position, a new key is appended. *)
Fixpoint assoc_set (fs : list (string * jsval)) (k : string) (v : jsval)
  : list (string * jsval) :=
  match fs with
  | [] => [(k, v)]
  | (k', v') :: r =>
      if String.eqb k' k then (k', v) :: r else (k', v') :: assoc_set r k v
  end.

(** The exceptions the handlers' try/catch turns into HTTP 500. *)
Inductive res (A : Type) : Type :=
  | Ok (a : A)
  | Throw.
Arguments Ok {A} a.
Arguments Throw {A}.

Definition res_bind {A B} (m : res A) (f : A -> res B) : res B :=
  match m with Ok a => f a | Throw => Throw end.

Notation "'let!' x := m 'in' k" := (res_bind m (fun x => k))
  (at level 200, x name, m at level 100, k at level 200).

(** [o.k] where [o] may be null or undefined (TypeError). *)
Definition get_prop (o : jsval) (k : string) : res jsval :=
  match o with
  | JUndefined | JNull => Throw
  | _ => Ok (prop o k)
  end.

(** [a === b].  Objects and arrays compared by the backend are always
    freshly parsed from JSON (request body or store), hence distinct
    references: they are never strictly equal. *)
Definition strict_eq (a b : jsval) : bool :=
  match a, b with
  | JUndefined, JUndefined => true
  | JNull, JNull => true
  | JBool x, JBool y => Bool.eqb x y
  | JNum x, JNum y => Z.eqb x y
  | JFloat x, JFloat y => String.eqb x y
  | JStr x, JStr y => String.eqb x y
  | _, _ => false
  end.

(** JavaScript truthiness. *)
Definition truthy (v : jsval) : bool :=
  match v with
  | JUndefined | JNull => false
  | JBool b => b
  | JNum n => negb (Z.eqb n 0)
  | JFloat _ => true
  | JStr s => negb (String.eqb s "")
  | JArr _ | JObj _ => true
  end.

(** [x || d] *)
Definition js_or (x d : jsval) : jsval := if truthy x then x else d.

(** String conversion used by template literals [`msg_${id}`]. *)
Fixpoint js_to_string (v : jsval) : string :=
  match v with
  | JUndefined => "undefined"
  | JNull => "null"
  | JBool b => if b then "true" else "false"
  | JNum n => pretty n
  | JFloat lit => lit
  | JStr s => s
  | JArr xs =>
      (fix join (xs : list jsval) : string :=
         match xs with
         | [] => ""
         | x :: r =>
             let e := match x with
                      | JUndefined | JNull => ""
                      | _ => js_to_string x
                      end in
             match r with
             | [] => e
             | _ => e +:+ "," +:+ join r
             end
         end) xs
  | JObj _ => "[object Object]"
  end.

(** ** The key-value table (kv_store.tsx, imported by the backend). *)
Abbreviation kvstore := (gmap string jsval).

(** Modelled from the spec: kv_store.tsx ([kv.get]), missing from the
    sources; one JSON document per key, absent keys read as undefined. *)
Definition kv_get (k : string) (s : kvstore) : jsval :=
  match s !! k with Some v => v | None => JUndefined end.

(** Modelled from the spec: kv_store.tsx ([kv.set]); last write wins. *)
Definition kv_set (k : string) (v : jsval) (s : kvstore) : kvstore :=
  <[k := v]> s.

(** Modelled from the spec: kv_store.tsx ([kv.mdel]); removes every
    listed key. *)
Definition kv_mdel (ks : list string) (s : kvstore) : kvstore :=
  foldr delete s ks.

(** Modelled from the spec: kv_store.tsx ([kv.getByPrefix]); the
    documents whose key starts with the prefix. *)
Definition kv_getByPrefix (p : string) (s : kvstore) : list jsval :=
  map snd (List.filter (fun kv => String.prefix p kv.1) (map_to_list s)).

(** ** HTTP responses *)
Record response := mkResponse { status : Z; payload : jsval }.

Definition ok_json (fs : list (string * jsval)) : response :=
  mkResponse 200 (JObj (("success", JBool true) :: fs)).

Definition err_json (code : Z) (msg : string) : response :=
  mkResponse code (JObj [("success", JBool false); ("error", JStr msg)]).

(** The catch branch: [c.json({ success: false, error: String(error) }, 500)]. *)
Definition err500 : response := err_json 500 "TypeError".

Definition msg_key (id : jsval) : string := "msg_" +:+ js_to_string id.

(** POST /messages/delete *)
Definition delete_messages (body : jsval) (s : kvstore) : response * kvstore :=
  match body with
  | JUndefined | JNull => (err500, s)
  | _ =>
      let ids := prop body "ids" in
      let password := prop body "password" in
      if negb (strict_eq password (JStr "Ramakrishna"))
      then (err_json 403 "Неверный пароль", s)
      else
        match ids with
        | JArr xs => (ok_json [], kv_mdel (map msg_key xs) s)
        | _ => (err500, s)
        end
  end.

(** [o.k = v]: objects get the property; arrays accept it but drop it
    when serialised; on other values the assignment throws (the edge
    function is an ES module, hence strict mode). *)
Definition set_prop (o : jsval) (k : string) (v : jsval) : res jsval :=
  match o with
  | JObj fs => Ok (JObj (assoc_set fs k v))
  | JArr xs => Ok (JArr xs)
  | _ => Throw
  end.

(** ** POST /messages *)

(** The stored document: [const message = { id, username, text, ... }]. *)
Definition message_doc (body : jsval) : jsval :=
  JObj [("id", prop body "id");
        ("username", prop body "username");
        ("text", prop body "text");
        ("timestamp", prop body "timestamp");
        ("replyTo", js_or (prop body "replyTo") JNull);
        ("fileUrl", js_or (prop body "fileUrl") JNull);
        ("fileType", js_or (prop body "fileType") JNull);
        ("fileName", js_or (prop body "fileName") JNull)].

Definition create_message (body : jsval) (s : kvstore) : response * kvstore :=
  match body with
  | JUndefined | JNull => (err500, s)
  | _ =>
      let message := message_doc body in
      (ok_json [("message", message)], kv_set (msg_key (prop body "id")) message s)
  end.

(** ** GET /messages *)

(** ToNumber on a string: surrounding white space is ignored, the empty
    string is 0, an optionally signed decimal integer is its value.
    Other numeric forms (fractions, exponents, hex, Infinity) are outside
    the integer model and read as NaN ([None]). *)
Fixpoint digits_value (cs : list ascii) (acc : Z) : option Z :=
  match cs with
  | [] => Some acc
  | c :: r =>
      let d := Z.of_nat (nat_of_ascii c) - 48 in
      if (0 <=? d) && (d <=? 9) then digits_value r (acc * 10 + d) else None
  end.

Fixpoint drop_space (cs : list ascii) : list ascii :=
  match cs with
  | c :: r => if Ascii.is_space c then drop_space r else cs
  | [] => []
  end.

(** [String.prototype.trim] *)
Definition js_trim (t : string) : string :=
  string_of_list_ascii
    (rev (drop_space (rev (drop_space (list_ascii_of_string t))))).

Definition str_to_number (t : string) : option Z :=
  match list_ascii_of_string (js_trim t) with
  | [] => Some 0
  | "-"%char :: ((_ :: _) as ds) => option_map Z.opp (digits_value ds 0)
  | "+"%char :: ((_ :: _) as ds) => digits_value ds 0
  | ds => digits_value ds 0
  end.

(** ToNumber; [None] is NaN.  Arrays and objects go through their string
    form, as ToPrimitive does. *)
Definition to_number (v : jsval) : option Z :=
  match v with
  | JUndefined => None
  | JNull => Some 0
  | JBool b => Some (if b then 1 else 0)
  | JNum n => Some n
  | JFloat _ => None
  | _ => str_to_number (js_to_string v)
  end.

(** The comparator [(a, b) => a.timestamp - b.timestamp] read as
    "a goes before b" (negative result).  Only create and edit write
    under [msg_] keys, and both write objects. *)
Definition ts_before (a b : jsval) : bool :=
  match to_number (prop a "timestamp"), to_number (prop b "timestamp") with
  | Some x, Some y => x - y <? 0
  | _, _ => false
  end.

Fixpoint ins_sorted (x : jsval) (l : list jsval) : list jsval :=
  match l with
  | [] => [x]
  | y :: r => if ts_before x y then x :: y :: r else y :: ins_sorted x r
  end.

(** [Array.prototype.sort] is stable (ES2019); with a consistent
    comparator (every timestamp a number) every stable sort returns this
    insertion-sort order ([v8_sort_short_js_sort] shows V8's agrees).
    With an inconsistent one (a comparison giving NaN) the order is the
    engine's: see [v8_sort_short] below. *)
Definition js_sort (l : list jsval) : list jsval :=
  fold_left (fun acc x => ins_sorted x acc) l [].

Definition listed_messages (s : kvstore) : list jsval :=
  js_sort (kv_getByPrefix "msg_" s).

Definition list_messages (s : kvstore) : response * kvstore :=
  (ok_json [("messages", JArr (listed_messages s))], s).

(** *** [Array.prototype.sort] as V8 (the engine of Deno) runs it

    With a timestamp that is missing or not a number the comparator
    returns NaN; it is then not consistent and the order is the engine's.
    V8's ArrayTimSort (builtins/array-sort.tq) on an array of fewer than
    64 elements has a minimum run length equal to the length, so it is
    one [CountAndMakeRun] from the first element followed by one
    [BinaryInsertionSort] of the elements after the run, with no merge.
    The elements sorted here are the stored documents, never undefined,
    so V8's moving of undefined elements to the end plays no part.
    Longer arrays, which merge runs, are not modelled ([None]). *)










(** ** POST /messages/edit *)

(** The own enumerable properties copied by [{...v}]. *)
Definition spread (v : jsval) : list (string * jsval) :=
  match v with
  | JObj fs => fs
  | JArr xs => zip (map (fun i : nat => pretty i) (seq 0 (length xs))) xs
  | JStr t =>
      let cs := list_ascii_of_string t in
      zip (map (fun i : nat => pretty i) (seq 0 (length cs)))
          (map (fun c => JStr (String c EmptyString)) cs)
  | _ => []
  end.

Definition edit_message (now : Z) (body : jsval) (s : kvstore)
  : response * kvstore :=
  match body with
  | JUndefined | JNull => (err500, s)
  | _ =>
      let id := prop body "id" in
      let username := prop body "username" in
      match prop body "newText" with
      | JStr newText =>
          if negb (truthy id) || negb (truthy username)
          then (err_json 400 "Неверные параметры", s)
          else
            let key := msg_key id in
            let existing := kv_get key s in
            if negb (truthy existing)
            then (err_json 404 "Сообщение не найдено", s)
            else if negb (strict_eq (prop existing "username") username)
            then (err_json 403 "Вы можете редактировать только свои сообщения", s)
            else
              let updated :=
                JObj (assoc_set (assoc_set (spread existing)
                                   "text" (JStr (js_trim newText)))
                                "editedAt" (JNum now)) in
              (ok_json [("message", updated)], kv_set key updated s)
      | _ => (err_json 400 "Неверные параметры", s)
      end
  end.

(** ** Settings *)
Definition default_settings : jsval :=
  JObj [("backgroundImage", JNull);
        ("panelColor", JStr "#1a1a1a");
        ("iconColor", JStr "#64b5f6");
        ("panelOpacity", JFloat "0.85")].

(** GET /settings *)
Definition get_settings (s : kvstore) : response * kvstore :=
  (ok_json [("settings", js_or (kv_get "chat_settings" s) default_settings)], s).

(** Modelled from the spec and the table of src/unnamed/part_000:
    [kv.set] (kv_store.tsx) writes the document to the [value] column,
    declared [JSONB NOT NULL]; a null document (or an undefined one,
    which JSON drops) is refused and [kv.set] throws. *)
Definition kv_set_checked (k : string) (v : jsval) (s : kvstore) : res kvstore :=
  match v with
  | JUndefined | JNull => Throw
  | _ => Ok (kv_set k v s)
  end.

(** The catch branch when [kv.set] throws: [String(error)] starts with
    [Error]; the rest is the database's message, not in the sources. *)
Definition err500_store : response := err_json 500 "Error".

(** POST /settings *)
Definition update_settings (body : jsval) (s : kvstore) : response * kvstore :=
  match kv_set_checked "chat_settings" body s with
  | Ok s' => (ok_json [], s')
  | Throw => (err500_store, s)
  end.

(** ** Stats and presence *)
Definition stats_default : jsval :=
  JObj [("views", JNum 0); ("onlineUsers", JArr [])].

(** [now - user.lastSeen < 10000] *)
Definition in_window (now : Z) (user : jsval) : res bool :=
  let! ls := get_prop user "lastSeen" in
  Ok (match to_number ls with Some t => now - t <? 10000 | None => false end).

Fixpoint res_filter (p : jsval -> res bool) (l : list jsval) : res (list jsval) :=
  match l with
  | [] => Ok []
  | x :: r =>
      let! b := p x in
      let! r' := res_filter p r in
      Ok (if b then x :: r' else r')
  end.

(** [findIndex]; [None] is -1. *)
Fixpoint res_find_index (p : jsval -> res bool) (l : list jsval)
  : res (option nat) :=
  match l with
  | [] => Ok None
  | x :: r =>
      let! b := p x in
      if b then Ok (Some 0%nat)
      else let! i := res_find_index p r in Ok (option_map S i)
  end.

(** GET /stats: the pruned list only feeds the count; nothing is written. *)
Definition get_stats (now : Z) (s : kvstore) : response * kvstore :=
  let stats := js_or (kv_get "chat_stats" s) stats_default in
  let r :=
    let! ou := get_prop stats "onlineUsers" in
    match js_or ou (JArr []) with
    | JArr us =>
        let! kept := res_filter (in_window now) us in
        let! stats' := set_prop stats "onlineUsers" (JArr kept) in
        Ok (prop stats' "views", length kept)
    | _ => Throw
    end in
  match r with
  | Ok (views, n) =>
      (ok_json [("views", views); ("onlineCount", JNum (Z.of_nat n))], s)
  | Throw => (err500, s)
  end.

(** [(stats.views || 0) + 1] after the [|| 0]; a non-integer number is
    outside the integer model. *)
Definition js_add_one (v : jsval) : res jsval :=
  match v with
  | JNum n => Ok (JNum (n + 1))
  | JBool b => Ok (JNum (if b then 2 else 1))
  | JUndefined | JNull => Ok (JNum 1)
  | JFloat _ => Throw
  | JStr t => Ok (JStr (t +:+ "1"))
  | JArr _ | JObj _ => Ok (JStr (js_to_string v +:+ "1"))
  end.

(** The record found by [findIndex] gets [lastSeen = now]; otherwise
    [{ id: userId, lastSeen: now }] is pushed. *)
Definition touch (userId : jsval) (now : Z) (us : list jsval)
  : res (list jsval) :=
  let! idx := res_find_index
                (fun u => let! uid := get_prop u "id" in Ok (strict_eq uid userId))
                us in
  match idx with
  | Some i =>
      match us !! i with
      | Some u => let! u' := set_prop u "lastSeen" (JNum now) in Ok (<[i := u']> us)
      | None => Ok us
      end
  | None => Ok (us ++ [JObj [("id", userId); ("lastSeen", JNum now)]])
  end.

(** [if (isNewVisit) { stats.views = (stats.views || 0) + 1 }] *)
Definition views_step (isNewVisit stats : jsval) : res jsval :=
  if truthy isNewVisit
  then let! v := js_add_one (js_or (prop stats "views") (JNum 0)) in
       set_prop stats "views" v
  else Ok stats.

(** The body of the try block of POST /presence up to [kv.set]: the
    document to store and the online count. *)
Definition presence_stats (now : Z) (userId isNewVisit stats : jsval)
  : res (jsval * nat) :=
  let! stats1 := views_step isNewVisit stats in
  let! ou := get_prop stats1 "onlineUsers" in
  match ou with
  | JArr us =>
      let! us1 := touch userId now us in
      let! kept := res_filter (in_window now) us1 in
      let! stats2 := set_prop stats1 "onlineUsers" (JArr kept) in
      Ok (stats2, length kept)
  | _ => Throw
  end.

(** POST /presence *)
Definition presence (now : Z) (body : jsval) (s : kvstore) : response * kvstore :=
  match body with
  | JUndefined | JNull => (err500, s)
  | _ =>
      let userId := prop body "userId" in
      let isNewVisit := prop body "isNewVisit" in
      let stats := js_or (kv_get "chat_stats" s) stats_default in
      match presence_stats now userId isNewVisit stats with
      | Ok (stats2, n) =>
          (ok_json [("views", prop stats2 "views"); ("onlineCount", JNum (Z.of_nat n))],
           kv_set "chat_stats" stats2 s)
      | Throw => (err500, s)
      end
  end.

(** ** The API: every route of the edge function.  The uploads go to the
    external object storage, whose outcome is a parameter here; they do
    not touch the key-value table. *)
Inductive request : Type :=
  | ListMessages
  | CreateMessage (body : jsval)
  | DeleteMessages (body : jsval)
  | EditMessage (now : Z) (body : jsval)
  | UploadFile (stored : bool)
  | GetSettings
  | UpdateSettings (body : jsval)
  | GetStats (now : Z)
  | Presence (now : Z) (body : jsval)
  | UploadBackground (stored : bool).

Definition upload (stored : bool) (s : kvstore) : response * kvstore :=
  (if stored then ok_json [] else err_json 500 "upload failed", s).

Definition handle (rq : request) (s : kvstore) : response * kvstore :=
  match rq with
  | ListMessages => list_messages s
  | CreateMessage b => create_message b s
  | DeleteMessages b => delete_messages b s
  | EditMessage now b => edit_message now b s
  | UploadFile ok => upload ok s
  | GetSettings => get_settings s
  | UpdateSettings b => update_settings b s
  | GetStats now => get_stats now s
  | Presence now b => presence now b s
  | UploadBackground ok => upload ok s
  end.

Inductive reachable : kvstore -> Prop :=
  | reach_init : reachable ∅
  | reach_step rq s : reachable s -> reachable (handle rq s).2.

(** *** Requests in flight

    [Deno.serve] runs the handlers concurrently: POST /presence awaits
    [kv.get] and, later, [kv.set], and other requests may run between
    the two.  [presence_read] is the handler up to its [kv.set]: it
    reads the stats at [kv.get] and computes the document to store;
    [presence_write] is the [kv.set] of that document, on the store as
    it is when the write lands.  The other routes never write
    [chat_stats] and are taken as one step each. *)
Definition presence_read (now : Z) (body : jsval) (s : kvstore) : res (jsval * nat) :=
  match body with
  | JUndefined | JNull => Throw
  | _ => presence_stats now (prop body "userId") (prop body "isNewVisit")
           (js_or (kv_get "chat_stats" s) stats_default)
  end.

Definition presence_write (pending : res (jsval * nat)) (s : kvstore) : kvstore :=
  match pending with
  | Ok (stats2, _) => kv_set "chat_stats" stats2 s
  | Throw => s
  end.

(** The server: the store and the presence updates between their
    [kv.get] and their [kv.set]. *)
Abbreviation server := (kvstore * list (res (jsval * nat)))%type.

Inductive cstep : server -> server -> Prop :=
  | cstep_other rq s ps :
      (forall now b, rq <> Presence now b) -> cstep (s, ps) ((handle rq s).2, ps)
  | cstep_read now b s ps :
      cstep (s, ps) (s, presence_read now b s :: ps)
  | cstep_write s ps1 p ps2 :
      cstep (s, ps1 ++ p :: ps2) (presence_write p s, ps1 ++ ps2).

Inductive creachable : server -> Prop :=
  | creach_init : creachable (∅, [])
  | creach_step c c' : creachable c -> cstep c c' -> creachable c'.

(** ** Routing (the [app.get]/[app.post] registrations).  A request no
    route matches gets Hono's default [404 Not Found]. *)
Definition api_prefix : string := "/make-server-98c5d13a".

Definition route (meth path : string) (now : Z) (body : jsval) (stored : bool)
  : option request :=
  if String.eqb meth "GET" then
    if String.eqb path (api_prefix +:+ "/messages") then Some ListMessages
    else if String.eqb path (api_prefix +:+ "/settings") then Some GetSettings
    else if String.eqb path (api_prefix +:+ "/stats") then Some (GetStats now)
    else None
  else if String.eqb meth "POST" then
    if String.eqb path (api_prefix +:+ "/messages") then Some (CreateMessage body)
    else if String.eqb path (api_prefix +:+ "/messages/delete") then Some (DeleteMessages body)
    else if String.eqb path (api_prefix +:+ "/messages/edit") then Some (EditMessage now body)
    else if String.eqb path (api_prefix +:+ "/upload") then Some (UploadFile stored)
    else if String.eqb path (api_prefix +:+ "/settings") then Some (UpdateSettings body)
    else if String.eqb path (api_prefix +:+ "/presence") then Some (Presence now body)
    else if String.eqb path (api_prefix +:+ "/upload-background") then Some (UploadBackground stored)
    else None
  else None.

Definition not_found : response := mkResponse 404 (JStr "404 Not Found").

Definition serve (meth path : string) (now : Z) (body : jsval) (stored : bool)
    (s : kvstore) : response * kvstore :=
  match route meth path now body stored with
  | Some rq => handle rq s
  | None => (not_found, s)
  end.

(** ** Uploads: the object name built from the original file name
    ([file.name.split('.').pop()] is the text after the last dot, or the
    whole name when it has none). *)
Fixpoint split_dot (s : string) : list string :=
  match s with
  | EmptyString => [EmptyString]
  | String c r =>
      match split_dot r with
      | [] => []
      | w :: ws => if Ascii.eqb c "."%char then EmptyString :: w :: ws
                   else String c w :: ws
      end
  end.

Definition file_ext (name : string) : string := List.last (split_dot name) EmptyString.

(** [`${Date.now()}_${Math.random().toString(36).substring(7)}.${fileExt}`] *)
Definition upload_object_name (now : Z) (rand name : string) : string :=
  pretty now +:+ "_" +:+ rand +:+ "." +:+ file_ext name.

(** [`bg_${Date.now()}.${fileExt}`] *)
Definition background_object_name (now : Z) (name : string) : string :=
  "bg_" +:+ pretty now +:+ "." +:+ file_ext name.

(** * The client's rendering of message text (src/src/App.tsx)

    Strings are modelled as ASCII strings.  A regular expression test
    [s.match(re)] becomes a search for the leftmost position where the
    pattern matches; the case-insensitive ones ([/i]) compare against the
    lower-cased characters. *)

Definition lower_ascii (c : ascii) : ascii :=
  let n := nat_of_ascii c in
  if (65 <=? n)%nat && (n <=? 90)%nat then ascii_of_nat (n + 32) else c.

(** [strip_prefix p s]: [s] starts with [p]; the rest of [s]. *)
Fixpoint strip_prefix (p s : string) : option string :=
  match p, s with
  | EmptyString, _ => Some s
  | String a p', String b s' => if Ascii.eqb a b then strip_prefix p' s' else None
  | _, _ => None
  end.

(** The same, ignoring case ([p] is written in lower case). *)
Fixpoint strip_prefix_ci (p s : string) : option string :=
  match p, s with
  | EmptyString, _ => Some s
  | String a p', String b s' =>
      if Ascii.eqb a (lower_ascii b) then strip_prefix_ci p' s' else None
  | _, _ => None
  end.

(** Leftmost position of [s] where [at_] matches. *)
Fixpoint search {A} (at_ : string -> option A) (s : string) : option A :=
  match at_ s with
  | Some a => Some a
  | None => match s with EmptyString => None | String _ s' => search at_ s' end
  end.

(** [/p/i] for a literal [p]. *)
Definition contains_ci (p s : string) : bool :=
  match search (strip_prefix_ci p) s with Some _ => true | None => false end.

(** The greedy run [c*] of characters satisfying [ok], and what follows. *)
Fixpoint span (ok : ascii -> bool) (s : string) : string * string :=
  match s with
  | EmptyString => (EmptyString, EmptyString)
  | String c s' =>
      if ok c then let (run, rest) := span ok s' in (String c run, rest)
      else (EmptyString, s)
  end.

(** A capture group [(c+)]: a non-empty greedy run. *)
Definition group_plus (ok : ascii -> bool) (s : string) : option string :=
  match span ok s with
  | (EmptyString, _) => None
  | (run, _) => Some run
  end.

(** [/p(c+)/] for a literal [p]: the first group of the leftmost match. *)
Definition match_group (p : string) (ok : ascii -> bool) (s : string) : option string :=
  search (fun t => match strip_prefix p t with
                   | Some r => group_plus ok r
                   | None => None
                   end) s.

Definition not_in (cs : list ascii) (c : ascii) : bool :=
  negb (existsb (Ascii.eqb c) cs).

Definition is_digit (c : ascii) : bool :=
  let n := nat_of_ascii c in (48 <=? n)%nat && (n <=? 57)%nat.

(** The class of white space on ASCII: tab, line feed, vertical tab, form feed, carriage
    return and space. *)
Definition is_space (c : ascii) : bool :=
  let n := nat_of_ascii c in ((9 <=? n)%nat && (n <=? 13)%nat) || (n =? 32)%nat.

(** [.] matches everything but a line terminator. *)
Definition is_line_char (c : ascii) : bool :=
  let n := nat_of_ascii c in negb ((n =? 10)%nat || (n =? 13)%nat).

Definition forallb_str (ok : ascii -> bool) (s : string) : bool :=
  forallb ok (list_ascii_of_string s).

Definition is_quote (c : ascii) : bool := negb (not_in ["034"%char; "039"%char] c).

(** [https?:\/\/] ignoring case: the length of the scheme matched. *)
Definition scheme_len (s : string) : option nat :=
  match strip_prefix_ci "https://" s with
  | Some _ => Some 8%nat
  | None => match strip_prefix_ci "http://" s with
            | Some _ => Some 7%nat
            | None => None
            end
  end.

(** The first regular expression of [renderMessageContent]: an http(s)
    URL between two quote characters (single or double), ignoring case;
    its value is the URL, group 1. *)
Definition quoted_at (s : string) : option string :=
  match s with
  | String q r =>
      if is_quote q then
        match scheme_len r with
        | Some n =>
            let rest := substring n (String.length r - n) r in
            match span (fun c => negb (is_quote c)) rest with
            | (EmptyString, _) => None
            | (_, EmptyString) => None
            | (run, _) => Some (substring 0 n r +:+ run)
            end
        | None => None
        end
      else None
  | EmptyString => None
  end.

Definition quoted_url (text : string) : option string := search quoted_at text.

(** [/^(https?:\/\/[^\s]+)$/i]. *)
Definition url_pattern (text : string) : bool :=
  match scheme_len text with
  | Some n =>
      let rest := substring n (String.length text - n) text in
      negb (String.eqb rest EmptyString) && forallb_str (fun c => negb (is_space c)) rest
  | None => false
  end.

(** The extension tests: a dot, one of [exts], then the end of the URL
    or a question mark followed by characters other than line
    terminators; ignoring case. *)
Definition ext_at (exts : list string) (s : string) : bool :=
  match s with
  | String "."%char r =>
      existsb (fun e =>
        match strip_prefix_ci e r with
        | Some EmptyString => true
        | Some (String "?"%char t) => forallb_str is_line_char t
        | _ => false
        end) exts
  | _ => false
  end.

Definition has_ext (exts : list string) (url : string) : bool :=
  match search (fun t => if ext_at exts t then Some tt else None) url with
  | Some _ => true
  | None => false
  end.

Definition video_exts : list string :=
  ["mp4"; "webm"; "ogg"; "ogv"; "mov"; "avi"; "mkv"; "flv"; "wmv"; "m4v"; "3gp";
   "mpg"; "mpeg"; "ts"; "m2ts"; "mts"; "m3u8"; "mxf"].
Definition audio_exts : list string :=
  ["mp3"; "wav"; "m4a"; "ogg"; "oga"; "aac"; "flac"; "wma"; "aiff"; "aif"; "aifc";
   "alac"; "ape"; "opus"; "amr"; "mid"; "midi"; "ra"; "rm"; "wv"; "tta"; "tak";
   "mka"; "dts"; "ac3"; "eac3"; "mlp"; "pcm"; "au"; "snd"; "m4b"; "m4p"; "3gp";
   "aa"; "aax"].
Definition image_exts : list string :=
  ["jpg"; "jpeg"; "png"; "gif"; "webp"; "bmp"; "svg"; "ico"; "tiff"; "tif"; "psd";
   "ai"; "eps"; "raw"; "cr2"; "nef"; "orf"; "sr2"; "jfif"; "jpe"; "heic"; "heif";
   "avif"; "apng"].
Definition doc_exts : list string := ["txt"; "pdf"; "doc"; "docx"].

(** What [renderMessageContent] shows for a message text.  For the
    embeds only the part of the [src] that depends on the text is kept:
    the Twitch channel (the page's host name is appended) and the
    SoundCloud track URL (passed through [encodeURIComponent]). *)
Inductive rendered : Type :=
  | QuotedLink (url : string)
  | YouTubeFrame (src : string)
  | VimeoFrame (src : string)
  | TikTokFrame (src : string)
  | TwitchFrame (channel : string)
  | DailymotionFrame (src : string)
  | SoundCloudFrame (url : string)
  | VideoTag (url : string) (hls : bool)
  | AudioTag (url : string)
  | ImageTag (url : string)
  | DocFrame (url : string)
  | GenericFrame (url : string)
  | TextBody (text : string).

Definition yt_embed_prefix : string := "https://www.youtube.com/embed/".

Definition watch_match (url : string) : option string :=
  search (fun t => match t with
                   | String c r =>
                       if negb (not_in ["?"%char; "&"%char] c) then
                         match strip_prefix "v=" r with
                         | Some r' => group_plus (not_in ["&"%char]) r'
                         | None => None
                         end
                       else None
                   | EmptyString => None
                   end) url.

Definition short_match (url : string) : option string :=
  match_group "youtu.be/" (not_in ["?"%char; "&"%char]) url.

Definition embed_match (url : string) : option string :=
  match_group "youtube.com/embed/" (not_in ["?"%char; "&"%char]) url.

(** [embedUrl] of the YouTube branch (the empty string when nothing
    matched). *)
Definition youtube_embed (url : string) : string :=
  let e0 := match watch_match url with Some id => yt_embed_prefix +:+ id | None => EmptyString end in
  let e1 := match short_match url with Some id => yt_embed_prefix +:+ id | None => e0 end in
  match embed_match url with Some _ => url | None => e1 end.

Definition is_youtube (url : string) : bool :=
  contains_ci "youtube.com" url || contains_ci "youtu.be" url.

Definition vimeo_id (url : string) : option string := match_group "vimeo.com/" is_digit url.
Definition tiktok_id (url : string) : option string := match_group "video/" is_digit url.
Definition twitch_channel (url : string) : option string :=
  match_group "twitch.tv/" (not_in ["/"%char]) url.
Definition dailymotion_id (url : string) : option string :=
  match_group "video/" (not_in ["_"%char]) url.

(** The YouTube branch: [embedUrl] when the URL names YouTube, else the
    empty string. *)
Definition youtube_src (url : string) : string :=
  if is_youtube url then youtube_embed url else EmptyString.

(** The branches of the unquoted-URL case, in the order of the source. *)
Definition classify_url (url : string) : rendered :=
  let yt := youtube_src url in
  if negb (String.eqb yt EmptyString) then YouTubeFrame yt else
  match (if contains_ci "vimeo.com" url then vimeo_id url else None) with
  | Some id => VimeoFrame ("https://player.vimeo.com/video/" +:+ id)
  | None =>
  match (if contains_ci "tiktok.com" url then tiktok_id url else None) with
  | Some id => TikTokFrame ("https://www.tiktok.com/embed/v2/" +:+ id)
  | None =>
  match (if contains_ci "twitch.tv" url then twitch_channel url else None) with
  | Some ch => TwitchFrame ch
  | None =>
  match (if contains_ci "dailymotion.com" url then dailymotion_id url else None) with
  | Some id => DailymotionFrame ("https://www.dailymotion.com/embed/video/" +:+ id)
  | None =>
  if contains_ci "soundcloud.com" url then SoundCloudFrame url else
  if has_ext video_exts url then VideoTag url (has_ext ["m3u8"] url) else
  if has_ext audio_exts url then AudioTag url else
  if has_ext image_exts url then ImageTag url else
  if has_ext doc_exts url then DocFrame url else
  GenericFrame url
  end end end end.

(** [renderMessageContent] on the text of a message: a quoted URL, then a
    text that is one URL, then the text with spoilers and file links. *)
Definition classify (text : string) : rendered :=
  match quoted_url text with
  | Some u => QuotedLink u
  | None => if url_pattern text then classify_url text else TextBody text
  end.

(** ** The spoiler parser of [renderTextWithSpoilersAndLinks]: the
    global expression matching [[spoiler:], a title of characters other
    than []] (group 1), []], a content of any characters, as short as
    possible (group 2), and [[/spoiler]]. *)

(** The text up to the first [c], and the text after it. *)
Fixpoint break_char (c : ascii) (s : string) : option (string * string) :=
  match s with
  | EmptyString => None
  | String a s' =>
      if Ascii.eqb a c then Some (EmptyString, s')
      else match break_char c s' with
           | Some (x, y) => Some (String a x, y)
           | None => None
           end
  end.

(** The text up to the first occurrence of [p], and the text after it
    (the lazy [[\s\S]*?] followed by [p]). *)
Fixpoint break_str (p s : string) : option (string * string) :=
  match strip_prefix p s with
  | Some r => Some (EmptyString, r)
  | None =>
      match s with
      | EmptyString => None
      | String a s' =>
          match break_str p s' with
          | Some (x, y) => Some (String a x, y)
          | None => None
          end
      end
  end.

Definition spoiler_open : string := "[spoiler:".
Definition spoiler_close : string := "[/spoiler]".

(** A match starting at the beginning of [s]: title, content, rest. *)
Definition spoiler_at (s : string) : option (string * string * string) :=
  match strip_prefix spoiler_open s with
  | Some r =>
      match break_char "]"%char r with
      | Some (title, r2) =>
          match break_str spoiler_close r2 with
          | Some (content, rest) => Some (title, content, rest)
          | None => None
          end
      | None => None
      end
  | None => None
  end.

(** [spoilerRegex.exec]: the leftmost match, with the text before it. *)
Fixpoint find_spoiler (s : string) : option (string * string * string * string) :=
  match spoiler_at s with
  | Some (t, c, r) => Some (EmptyString, t, c, r)
  | None =>
      match s with
      | EmptyString => None
      | String a s' =>
          match find_spoiler s' with
          | Some (b, t, c, r) => Some (String a b, t, c, r)
          | None => None
          end
      end
  end.

Inductive part : Type :=
  | Text (s : string)
  | Spoiler (title content : string).

(** The [while] loop.  [exec] resumes at [lastIndex]; as the pattern has
    no anchor or look-behind this is a search of the remaining suffix.
    Each match is at least 19 characters long, so the fuel
    [length text + 1] is never exhausted (see [spoiler_loop_enough]). *)
Fixpoint spoiler_loop (fuel : nat) (s : string) : list part :=
  let tail := match s with EmptyString => [] | _ => [Text s] end in
  match fuel with
  | O => tail
  | S f =>
      match find_spoiler s with
      | Some (b, t, c, r) =>
          match b with EmptyString => [] | _ => [Text b] end ++
          Spoiler t c :: spoiler_loop f r
      | None => tail
      end
  end.

Definition spoiler_parts (text : string) : list part :=
  match spoiler_loop (S (String.length text)) text with
  | [] => [Text text]
  | ps => ps
  end.

(** The markup a part stands for. *)
Definition part_text (p : part) : string :=
  match p with
  | Text s => s
  | Spoiler t c => spoiler_open +:+ t +:+ "]" +:+ c +:+ spoiler_close
  end.

(** ** The client (src/src/App.tsx): sending and editing messages *)

Inductive send_action : Type :=
  | SendNothing
  | OpenSetBg
  | OpenSetTheme
  | PostMessage (body : jsval).

(** [sendMessage]: the [Message] object posted to POST /messages, as
    [JSON.stringify] sends it.  [Date.now()] is read twice, for the id and
    for the timestamp; [replyingTo] is the message replied to, if any. *)
Definition send_message (inputText displayName : string) (idNow tsNow : Z)
    (replyingTo : option jsval) (isLoggedInUser : bool)
    (nameColor messageBackground : string) : send_action :=
  let text := js_trim inputText in
  if String.eqb text EmptyString then SendNothing
  else if String.eqb text "setbg" then OpenSetBg
  else if String.eqb text "settheme" then OpenSetTheme
  else PostMessage
    (JObj [("id", JStr (pretty idNow));
           ("username", JStr displayName);
           ("text", JStr text);
           ("timestamp", JNum tsNow);
           ("replyTo", match replyingTo with
                       | Some m => js_or (prop m "id") JNull
                       | None => JNull
                       end);
           ("nameColor", if isLoggedInUser then JStr nameColor else JNull);
           ("messageBackground", if isLoggedInUser then JStr messageBackground else JNull)]).

(** [saveEditedMessage]: the request it sends, [PUT ${API_URL}/messages]
    with the body [{ id, text }]. *)
Definition client_edit_method : string := "PUT".
Definition client_edit_path : string := api_prefix +:+ "/messages".
Definition client_edit_body (messageId newText : string) : jsval :=
  JObj [("id", JStr messageId); ("text", JStr newText)].

(** [setBgFromUrl]: [{ ...settings, backgroundImage: bgUrl.trim() }]. *)
Definition bg_url_settings (settings : jsval) (bgUrl : string) : jsval :=
  JObj (assoc_set (spread settings) "backgroundImage" (JStr (js_trim bgUrl))).

(** [applyTheme]: [{ ...settings, panelColor: themePanel,
    iconColor: themeIcon, panelOpacity: themeOpacity }]. *)
Definition theme_settings (settings : jsval) (themePanel themeIcon : string)
    (themeOpacity : jsval) : jsval :=
  JObj (assoc_set (assoc_set (assoc_set (spread settings)
          "panelColor" (JStr themePanel))
          "iconColor" (JStr themeIcon))
          "panelOpacity" themeOpacity).

(** [toggleSelectMessage] on the set of messages selected for deletion. *)
Definition toggle_select (id : string) (sel : gset string) : gset string :=
  if decide (id ∈ sel) then sel ∖ {[ id ]} else sel ∪ {[ id ]}.

(** ** [hexToRgba] *)
Definition hex_val (c : ascii) : option Z :=
  let n := Z.of_nat (nat_of_ascii c) in
  if (48 <=? n) && (n <=? 57) then Some (n - 48)
  else if (97 <=? n) && (n <=? 102) then Some (n - 87)
  else if (65 <=? n) && (n <=? 70) then Some (n - 55)
  else None.

Definition is_hex (c : ascii) : bool :=
  match hex_val c with Some _ => true | None => false end.

(** [parseInt(s, 16)]: the leading hex digits; NaN ([None]) when there
    is none. *)
Fixpoint hex_digits (cs : list ascii) (acc : Z) : Z * bool :=
  match cs with
  | c :: r =>
      match hex_val c with
      | Some d => hex_digits r (acc * 16 + d)
      | None => (acc, false)
      end
  | [] => (acc, true)
  end.

Definition parse_int16 (cs : list ascii) : option Z :=
  match cs with
  | c :: _ => match hex_val c with
              | Some _ => Some (fst (hex_digits cs 0))
              | None => None
              end
  | [] => None
  end.

Definition num_text (o : option Z) : string :=
  match o with Some n => pretty n | None => "NaN" end.

(** [hexToRgba(hex, alpha)]; [alpha] is the text of the number. *)
Definition hex_to_rgba (hex : jsval) (alpha : string) : string :=
  let fallback := "rgba(34, 58, 86, " +:+ alpha +:+ ")" in
  match hex with
  | JStr s =>
      if String.eqb s EmptyString then fallback else
      let h0 := list_ascii_of_string (js_trim s) in
      let h1 := match h0 with "#"%char :: r => r | _ => h0 end in
      let h := if (length h1 =? 3)%nat then flat_map (fun c => [c; c]) h1 else h1 in
      if (length h =? 6)%nat && forallb is_hex h then
        "rgba(" +:+ num_text (parse_int16 (firstn 2 h)) +:+ ", " +:+
        num_text (parse_int16 (firstn 2 (skipn 2 h))) +:+ ", " +:+
        num_text (parse_int16 (skipn 4 h)) +:+ ", " +:+ alpha +:+ ")"
      else fallback
  | _ => fallback
  end.

(** The style of a message bubble in the message list: the background
    [hexToRgba(msg.messageBackground || '#003a21', 0.8)], the name color
    [msg.nameColor || '#ebef00'] and whether the [(ред.)] marker shows. *)
Definition bubble_style (msg : jsval) : string * jsval * bool :=
  (hex_to_rgba (js_or (prop msg "messageBackground") (JStr "#003a21")) "0.8",
   js_or (prop msg "nameColor") (JStr "#ebef00"),
   truthy (prop msg "edited")).

(** ** File links in the text parts: [/\[file:([^\]]+)\]/g] *)

Definition file_open : string := "[file:".

Definition file_link_at (s : string) : option (string * string) :=
  match strip_prefix file_open s with
  | Some r =>
      match break_char "]"%char r with
      | Some (EmptyString, _) => None
      | Some (name, rest) => Some (name, rest)
      | None => None
      end
  | None => None
  end.

Fixpoint find_file_link (s : string) : option (string * string * string) :=
  match file_link_at s with
  | Some (n, r) => Some (EmptyString, n, r)
  | None =>
      match s with
      | EmptyString => None
      | String a s' =>
          match find_file_link s' with
          | Some (b, n, r) => Some (String a b, n, r)
          | None => None
          end
      end
  end.

Inductive link_piece : Type :=
  | LText (s : string)
  | LFile (name : string).

(** A link to the message's own attachment is replaced by the attachment;
    any other link stays as its text [linkMatch[0]]. *)
Definition link_piece_of (fileUrl fileName : jsval) (name : string) : link_piece :=
  if truthy fileUrl && strict_eq fileName (JStr name) then LFile name
  else LText (file_open +:+ name +:+ "]").

Fixpoint link_loop (fileUrl fileName : jsval) (fuel : nat) (s : string) : list link_piece :=
  let tail := match s with EmptyString => [] | _ => [LText s] end in
  match fuel with
  | O => tail
  | S f =>
      match find_file_link s with
      | Some (b, n, r) =>
          match b with EmptyString => [] | _ => [LText b] end ++
          link_piece_of fileUrl fileName n :: link_loop fileUrl fileName f r
      | None => tail
      end
  end.

(** A text part as rendered: its pieces, or the part itself when the loop
    produced none. *)
Definition link_pieces (fileUrl fileName : jsval) (part : string) : list link_piece :=
  match link_loop fileUrl fileName (S (String.length part)) part with
  | [] => [LText part]
  | ps => ps
  end.

Definition piece_text (p : link_piece) : string :=
  match p with
  | LText s => s
  | LFile n => file_open +:+ n +:+ "]"
  end.

Fixpoint pieces_text (ps : list link_piece) : string :=
  match ps with
  | [] => EmptyString
  | p :: ps => piece_text p +:+ pieces_text ps
  end.

(** [SpoilerBlock]: the attachment shows inside an opened spoiler when the
    first file link of its content names the message's file. *)
Definition spoiler_shows_file (fileUrl fileName : jsval) (content : string) : bool :=
  match find_file_link content with
  | Some (_, n, _) => strict_eq fileName (JStr n) && truthy fileUrl
  | None => false
  end.

(** [s.includes(p)] *)
Definition js_includes (p s : string) : bool :=
  match search (strip_prefix p) s with Some _ => true | None => false end.

(** The attachment is also shown under the text unless the text contains
    [`[file:${msg.fileName}]`]. *)
Definition attachment_below (text : string) (fileUrl fileName : jsval) : bool :=
  truthy fileUrl &&
  negb (js_includes (file_open +:+ js_to_string fileName +:+ "]") text).

(** [insertFileLink]: the text appended to the input. *)
Definition file_link_text (name : string) : string := file_open +:+ name +:+ "]".

(** [handleSpoilerClick], opening then closing: the markup around what
    the user typed in between. *)
Definition toolbar_spoiler (title typed : string) : string :=
  spoiler_open +:+ title +:+ "]" +:+ typed +:+ spoiler_close.

(** A message document as the backend writes it: an object without the
    [nameColor], [messageBackground] and [edited] fields. *)
Definition plain_msg_doc (d : jsval) : Prop :=
  exists fs, d = JObj fs /\ assoc_get fs "nameColor" = JUndefined /\
             assoc_get fs "messageBackground" = JUndefined /\
             assoc_get fs "edited" = JUndefined.

Definition plain_msgs (s : kvstore) : Prop :=
  forall k d, String.prefix "msg_" k = true -> s !! k = Some d -> plain_msg_doc d.

(** Sample evaluations of the conversions. *)
Example ex_num : to_number (JStr " -12 ") = Some (-12). Proof. reflexivity. Qed.
Example ex_key : msg_key (JStr "17") = "msg_17". Proof. reflexivity. Qed.
Example ex_key2 : msg_key (JNum 17) = "msg_17". Proof. reflexivity. Qed.
Example ex_trim : js_trim "  hi there   " = "hi there". Proof. reflexivity. Qed.

(** * Properties of the backend *)

Lemma strict_eq_true (a b : jsval) : strict_eq a b = true -> a = b.
Proof.
  destruct a, b; simpl; intros H; try discriminate; try reflexivity.
  - apply Bool.eqb_prop in H; subst; reflexivity.
  - apply Z.eqb_eq in H; subst; reflexivity.
  - apply String.eqb_eq in H; subst; reflexivity.
  - apply String.eqb_eq in H; subst; reflexivity.
Qed.

Lemma strict_eq_str (a : jsval) (t : string) :
  strict_eq a (JStr t) = true <-> a = JStr t.
Proof.
  split; [apply strict_eq_true|]. intros ->. simpl. apply String.eqb_refl.
Qed.

Lemma assoc_get_set_eq fs k v : assoc_get (assoc_set fs k v) k = v.
Proof.
  induction fs as [|[k' v'] r IH]; simpl.
  - rewrite String.eqb_refl. reflexivity.
  - destruct (String.eqb k' k) eqn:E; simpl; rewrite ?E; [reflexivity|exact IH].
Qed.

Lemma assoc_get_set_ne fs k v k2 :
  k <> k2 -> assoc_get (assoc_set fs k v) k2 = assoc_get fs k2.
Proof.
  intros Hne. induction fs as [|[k' v'] r IH]; simpl.
  - destruct (String.eqb_spec k k2); [contradiction|reflexivity].
  - destruct (String.eqb_spec k' k) as [->|]; simpl.
    + destruct (String.eqb_spec k k2); [contradiction|reflexivity].
    + destruct (String.eqb k' k2); [reflexivity|exact IH].
Qed.

Lemma kv_mdel_lookup (ks : list string) (s : kvstore) (k : string) :
  kv_mdel ks s !! k = if decide (k ∈ ks) then None else s !! k.
Proof.
  induction ks as [|k0 ks IH]; unfold kv_mdel in *; cbn [foldr].
  - case_decide as Hin; [apply not_elem_of_nil in Hin; contradiction|reflexivity].
  - rewrite lookup_delete, IH.
    repeat case_decide; rewrite ?elem_of_cons in *; try reflexivity;
      exfalso; intuition congruence.
Qed.

(** C1: a delete request removes exactly the listed messages when, and only
    when, the password is the hardcoded string "Ramakrishna"; with any other
    password it answers 403 and leaves the store as it was. *)
Theorem delete_messages_password (fs : list (string * jsval)) (s : kvstore) :
  (forall xs, prop (JObj fs) "password" = JStr "Ramakrishna" ->
     prop (JObj fs) "ids" = JArr xs ->
     status (delete_messages (JObj fs) s).1 = 200 /\
     forall k, (delete_messages (JObj fs) s).2 !! k =
               if decide (k ∈ map msg_key xs) then None else s !! k) /\
  (prop (JObj fs) "password" <> JStr "Ramakrishna" ->
     status (delete_messages (JObj fs) s).1 = 403 /\
     (delete_messages (JObj fs) s).2 = s).
Proof.
  split.
  - intros xs Hpw Hids. unfold delete_messages.
    rewrite Hpw, Hids. simpl. split; [reflexivity|].
    intros k. apply kv_mdel_lookup.
  - intros Hpw. unfold delete_messages.
    destruct (strict_eq (prop (JObj fs) "password") (JStr "Ramakrishna")) eqn:E.
    + apply strict_eq_str in E. contradiction.
    + simpl. split; reflexivity.
Qed.

Definition w_delete_body : jsval :=
  JObj [("ids", JArr [JStr "1"]); ("password", JStr "Ramakrishna")].
Definition w_delete_store : kvstore :=
  <["msg_1" := JNull]> (<["msg_2" := JNull]> ∅).

Lemma delete_messages_password_witness :
  status (delete_messages w_delete_body w_delete_store).1 = 200 /\
  (delete_messages w_delete_body w_delete_store).2 !! "msg_1" = None /\
  (delete_messages w_delete_body w_delete_store).2 !! "msg_2" = Some JNull.
Proof.
  destruct (proj1 (delete_messages_password
                     [("ids", JArr [JStr "1"]); ("password", JStr "Ramakrishna")]
                     w_delete_store) [JStr "1"] eq_refl eq_refl) as [H1 H2].
  split; [exact H1|]. split.
  - rewrite H2. vm_compute. reflexivity.
  - rewrite H2. vm_compute. reflexivity.
Defined.

(** C3 (code bug): the stored message document never carries the per-user
    display colors the client sends; [POST /messages] copies only id,
    username, text, timestamp, replyTo and the file fields. *)
Theorem create_message_drops_colors (fs : list (string * jsval)) (s : kvstore) :
  prop (kv_get (msg_key (prop (JObj fs) "id")) (create_message (JObj fs) s).2)
       "nameColor" = JUndefined /\
  prop (kv_get (msg_key (prop (JObj fs) "id")) (create_message (JObj fs) s).2)
       "messageBackground" = JUndefined.
Proof.
  cbn [create_message snd]. unfold kv_get, kv_set. rewrite lookup_insert_eq.
  split; reflexivity.
Qed.

(** The client's request for a logged-in user (App.tsx, sendMessage). *)
Definition client_message_body : jsval :=
  JObj [("id", JStr "1760000000000"); ("username", JStr "ann");
        ("text", JStr "hi"); ("timestamp", JNum 1760000000000);
        ("replyTo", JNull); ("nameColor", JStr "#ebef00");
        ("messageBackground", JStr "#003a21")].

Example client_colors_lost :
  prop (kv_get "msg_1760000000000" (create_message client_message_body ∅).2)
       "nameColor" = JUndefined /\
  prop client_message_body "nameColor" = JStr "#ebef00".
Proof. split; reflexivity. Qed.

(** ** Listing messages *)

Lemma ins_sorted_perm (x : jsval) (l : list jsval) : ins_sorted x l ≡ₚ x :: l.
Proof.
  induction l as [|y r IH]; simpl; [reflexivity|].
  destruct (ts_before x y); [reflexivity|].
  etrans; [apply perm_skip, IH|apply perm_swap].
Qed.

Lemma sort_fold_perm (l acc : list jsval) :
  fold_left (fun acc x => ins_sorted x acc) l acc ≡ₚ acc ++ l.
Proof.
  revert acc. induction l as [|x l IH]; intros acc; simpl.
  - rewrite app_nil_r. reflexivity.
  - rewrite IH, ins_sorted_perm. simpl. apply Permutation_middle.
Qed.

Lemma js_sort_perm (l : list jsval) : js_sort l ≡ₚ l.
Proof. unfold js_sort. rewrite sort_fold_perm. reflexivity. Qed.

Lemma list_filter_stdpp {A} (f : A -> bool) (l : list A) :
  List.filter f l = filter (fun x => f x = true) l.
Proof.
  induction l as [|a l IH]; simpl; [reflexivity|].
  rewrite filter_cons. destruct (f a) eqn:E.
  - rewrite decide_True by reflexivity. rewrite IH. reflexivity.
  - rewrite decide_False by congruence. exact IH.
Qed.

Lemma kv_getByPrefix_perm (p : string) (s : kvstore) :
  kv_getByPrefix p s ≡ₚ
  map snd (map_to_list (filter (fun kv : string * jsval => String.prefix p kv.1 = true) s)).
Proof.
  unfold kv_getByPrefix. apply Permutation_map.
  rewrite map_filter_alt, list_filter_stdpp.
  symmetry. apply map_to_list_to_map.
  apply NoDup_fmap_fst.
  - intros k v1 v2 H1 H2. apply list_elem_of_filter in H1, H2.
    destruct H1 as [_ H1], H2 as [_ H2].
    apply elem_of_map_to_list in H1, H2. congruence.
  - apply NoDup_filter, NoDup_map_to_list.
Qed.

(** C4: a created message is stored under the key [msg_<id>] (the id
    converted as the template literal does), and the listing returns
    exactly the documents of the keys starting with [msg_], each once:
    the other documents (chat_settings, chat_stats) never appear. *)
Theorem messages_keyed_by_id (fs : list (string * jsval)) (s : kvstore) :
  (create_message (JObj fs) s).2 !! ("msg_" +:+ js_to_string (prop (JObj fs) "id"))
    = Some (message_doc (JObj fs)) /\
  listed_messages s ≡ₚ
    map snd (map_to_list
               (filter (fun kv : string * jsval => String.prefix "msg_" kv.1 = true) s)).
Proof.
  split.
  - cbn [create_message snd]. unfold kv_set, msg_key. apply lookup_insert_eq.
  - unfold listed_messages. rewrite js_sort_perm. apply kv_getByPrefix_perm.
Qed.

Example settings_not_listed :
  listed_messages (<["chat_settings" := default_settings]>
                     (<["chat_stats" := stats_default]>
                        (<["msg_1" := message_doc client_message_body]> ∅)))
  = [message_doc client_message_body].
Proof. vm_compute. reflexivity. Qed.




Section InsertionSort.




End InsertionSort.

Lemma kv_getByPrefix_forall (P : jsval -> Prop) (p : string) (s : kvstore) :
  (forall k v, s !! k = Some v -> String.prefix p k = true -> P v) ->
  Forall P (kv_getByPrefix p s).
Proof.
  intros H. unfold kv_getByPrefix. apply Forall_forall.
  intros v Hv. apply list_elem_of_In, in_map_iff in Hv as [[k v'] [Heq Hin]]. simpl in Heq; subst v'.
  apply filter_In in Hin as [Hin Hpre].
  apply (H k); [|exact Hpre].
  apply elem_of_map_to_list, list_elem_of_In, Hin.
Qed.

(** ** V8's sort and the insertion sort agree on consistent comparisons *)

Section V8Sort.






















End V8Sort.






(** ** Editing messages *)

(** The parameter check of the edit route:
    [!id || typeof newText !== 'string' || !username] fails. *)
Definition edit_params_ok (body : jsval) : bool :=
  truthy (prop body "id") &&
  match prop body "newText" with JStr _ => true | _ => false end &&
  truthy (prop body "username").

Definition edited_doc (now : Z) (ofs : list (string * jsval)) (t : string) : jsval :=
  JObj (assoc_set (assoc_set ofs "text" (JStr (js_trim t))) "editedAt" (JNum now)).

Lemma strict_eq_undefined_l (v : jsval) :
  strict_eq JUndefined v = true -> v = JUndefined.
Proof. destruct v; simpl; congruence. Qed.

(** The only way an edit succeeds. *)
Lemma edit_message_success (now : Z) (body : jsval) (s : kvstore) :
  status (edit_message now body s).1 = 200 ->
  exists t ofs,
    prop body "newText" = JStr t /\
    edit_params_ok body = true /\
    s !! msg_key (prop body "id") = Some (JObj ofs) /\
    assoc_get ofs "username" = prop body "username" /\
    edit_message now body s =
      (ok_json [("message", edited_doc now ofs t)],
       <[msg_key (prop body "id") := edited_doc now ofs t]> s).
Proof.
  intros H.
  assert (Hb : body <> JUndefined /\ body <> JNull).
  { split; intros ->; simpl in H; discriminate. }
  assert (Hunf : edit_message now body s =
    match prop body "newText" with
    | JStr newText =>
        if negb (truthy (prop body "id")) || negb (truthy (prop body "username"))
        then (err_json 400 "Неверные параметры", s)
        else
          let key := msg_key (prop body "id") in
          let existing := kv_get key s in
          if negb (truthy existing)
          then (err_json 404 "Сообщение не найдено", s)
          else if negb (strict_eq (prop existing "username") (prop body "username"))
          then (err_json 403 "Вы можете редактировать только свои сообщения", s)
          else
            let updated :=
              JObj (assoc_set (assoc_set (spread existing)
                                 "text" (JStr (js_trim newText)))
                              "editedAt" (JNum now)) in
            (ok_json [("message", updated)], kv_set key updated s)
    | _ => (err_json 400 "Неверные параметры", s)
    end).
  { destruct body; try (destruct Hb; congruence); reflexivity. }
  rewrite Hunf in H |- *. unfold edit_params_ok.
  destruct (prop body "newText") as [| | | | |t| |]; try discriminate H.
  destruct (truthy (prop body "id")) eqn:Hid; [|discriminate H].
  destruct (truthy (prop body "username")) eqn:Hu; [|discriminate H].
  unfold kv_get in H |- *. simpl in H |- *.
  destruct (s !! msg_key (prop body "id")) as [e|] eqn:He; [|discriminate H].
  destruct (truthy e) eqn:Ht; [|discriminate H]. simpl in H |- *.
  destruct (strict_eq (prop e "username") (prop body "username")) eqn:Hs;
    [|discriminate H].
  apply strict_eq_true in Hs.
  destruct e as [| | | | | | |ofs];
    try (simpl in Hs; rewrite <- Hs in Hu; discriminate Hu).
  exists t, ofs. repeat split; try assumption.
Qed.

(** C5: a successful edit changes the stored message only in its text, now
    the trimmed new text, and adds the [editedAt] marker; every other field
    (id, username, timestamp, replyTo, fileUrl, fileType, fileName, ...)
    and every other stored document is unchanged. *)
Theorem edit_changes_only_text (now : Z) (body : jsval) (s : kvstore) :
  status (edit_message now body s).1 = 200 ->
  exists ofs t,
    prop body "newText" = JStr t /\
    s !! msg_key (prop body "id") = Some (JObj ofs) /\
    prop (kv_get (msg_key (prop body "id")) (edit_message now body s).2) "text"
      = JStr (js_trim t) /\
    prop (kv_get (msg_key (prop body "id")) (edit_message now body s).2) "editedAt"
      = JNum now /\
    (forall f, f <> "text" -> f <> "editedAt" ->
       prop (kv_get (msg_key (prop body "id")) (edit_message now body s).2) f
         = prop (JObj ofs) f) /\
    (forall k, k <> msg_key (prop body "id") ->
       (edit_message now body s).2 !! k = s !! k).
Proof.
  intros H. destruct (edit_message_success now body s H)
    as (t & ofs & Ht & _ & Hs & _ & Heq).
  exists ofs, t. rewrite Heq. simpl. unfold kv_get. rewrite lookup_insert_eq.
  unfold edited_doc. simpl.
  repeat split; try assumption.
  - rewrite assoc_get_set_ne by discriminate. apply assoc_get_set_eq.
  - apply assoc_get_set_eq.
  - intros f H1 H2. rewrite !assoc_get_set_ne by congruence. reflexivity.
  - intros k Hk. apply lookup_insert_ne. congruence.
Qed.

Definition w_edit_body : jsval :=
  JObj [("id", JStr "1760000000000"); ("newText", JStr "  hello  ");
        ("username", JStr "ann")].

Lemma edit_changes_only_text_witness :
  status (edit_message 7 w_edit_body
            (<["msg_1760000000000" := message_doc client_message_body]> ∅)).1 = 200 /\
  exists ofs t,
    prop w_edit_body "newText" = JStr t /\
    (<["msg_1760000000000" := message_doc client_message_body]> ∅ : kvstore)
      !! msg_key (prop w_edit_body "id") = Some (JObj ofs).
Proof.
  assert (H : status (edit_message 7 w_edit_body
            (<["msg_1760000000000" := message_doc client_message_body]> ∅)).1 = 200)
    by (vm_compute; reflexivity).
  split; [exact H|].
  destruct (edit_changes_only_text 7 w_edit_body _ H) as (ofs & t & H1 & H2 & _).
  exists ofs, t. split; assumption.
Defined.

(** C8: an edit succeeds only for the author (the stored username is the
    requester's, compared with [===], so case-sensitively); otherwise, in
    the order the route checks: missing parameters give 400, a missing
    message 404, another username 403, and the store is left unchanged. *)
Theorem edit_only_by_author (now : Z) (fs : list (string * jsval)) (s : kvstore) :
  (status (edit_message now (JObj fs) s).1 = 200 ->
     edit_params_ok (JObj fs) = true /\
     exists ofs, s !! msg_key (prop (JObj fs) "id") = Some (JObj ofs) /\
                 prop (JObj ofs) "username" = prop (JObj fs) "username") /\
  (edit_params_ok (JObj fs) = false ->
     status (edit_message now (JObj fs) s).1 = 400 /\
     (edit_message now (JObj fs) s).2 = s) /\
  (edit_params_ok (JObj fs) = true ->
     s !! msg_key (prop (JObj fs) "id") = None ->
     status (edit_message now (JObj fs) s).1 = 404 /\
     (edit_message now (JObj fs) s).2 = s) /\
  (forall ofs, edit_params_ok (JObj fs) = true ->
     s !! msg_key (prop (JObj fs) "id") = Some (JObj ofs) ->
     strict_eq (prop (JObj ofs) "username") (prop (JObj fs) "username") = false ->
     status (edit_message now (JObj fs) s).1 = 403 /\
     (edit_message now (JObj fs) s).2 = s).
Proof.
  split; [|split; [|split]].
  - intros H. destruct (edit_message_success now (JObj fs) s H)
      as (t & ofs & _ & Hp & Hs & Hu & _).
    split; [exact Hp|]. exists ofs. split; assumption.
  - unfold edit_params_ok. cbn [edit_message].
    destruct (prop (JObj fs) "newText");
      cbn [negb orb andb status fst snd]; try (intros; split; reflexivity).
    destruct (truthy (prop (JObj fs) "id")), (truthy (prop (JObj fs) "username"));
      cbn [negb orb andb status fst snd]; try discriminate; intros; split; reflexivity.
  - unfold edit_params_ok. cbn [edit_message].
    intros Hp Hn. unfold kv_get. rewrite Hn.
    apply andb_prop in Hp as [Hp Hu]. apply andb_prop in Hp as [Hi Hm].
    destruct (prop (JObj fs) "newText"); try discriminate Hm.
    rewrite Hi, Hu. split; reflexivity.
  - unfold edit_params_ok. cbn [edit_message].
    intros ofs Hp Hs Hne. unfold kv_get. rewrite Hs.
    apply andb_prop in Hp as [Hp Hu]. apply andb_prop in Hp as [Hi Hm].
    destruct (prop (JObj fs) "newText"); try discriminate Hm.
    rewrite Hi, Hu. cbn [negb orb truthy]. rewrite Hne. split; reflexivity.
Qed.

Definition w_author_fields : list (string * jsval) :=
  [("id", JStr "1760000000000"); ("newText", JStr "x"); ("username", JStr "Ann")].

Lemma edit_only_by_author_witness :
  status (edit_message 7 (JObj w_author_fields)
            (<["msg_1760000000000" := message_doc client_message_body]> ∅)).1 = 403 /\
  (edit_message 7 (JObj w_author_fields)
     (<["msg_1760000000000" := message_doc client_message_body]> ∅)).2
  = <["msg_1760000000000" := message_doc client_message_body]> ∅.
Proof.
  destruct (edit_only_by_author 7 w_author_fields
              (<["msg_1760000000000" := message_doc client_message_body]> ∅))
    as (_ & _ & _ & H4).
  apply (H4 (match message_doc client_message_body with
             | JObj ofs => ofs | _ => [] end)).
  - reflexivity.
  - vm_compute. reflexivity.
  - vm_compute. reflexivity.
Defined.

(** ** Stats and presence *)

Lemma res_bind_ok {A B} (m : res A) (f : A -> res B) (b : B) :
  res_bind m f = Ok b -> exists a, m = Ok a /\ f a = Ok b.
Proof. destruct m as [a|]; simpl; [eauto|discriminate]. Qed.

Ltac res_inv H :=
  repeat match type of H with
  | res_bind _ _ = Ok _ =>
      let a := fresh "a" in let Ha := fresh "Hm" in
      apply res_bind_ok in H as [a [Ha H]]
  end.

Lemma res_filter_spec (p : jsval -> res bool) (l kept : list jsval) :
  res_filter p l = Ok kept ->
  forall u, In u kept <-> In u l /\ p u = Ok true.
Proof.
  revert kept. induction l as [|x l IH]; intros kept H u; simpl in H.
  - injection H as <-. simpl. tauto.
  - res_inv H. injection H as <-. specialize (IH _ Hm0).
    destruct a; simpl; rewrite IH; split.
    + intros [<-|[Hin Hp]]; [tauto|tauto].
    + intros [[<-|Hin] Hp]; [tauto|tauto].
    + intros [Hin Hp]; tauto.
    + intros [[<-|Hin] Hp]; [congruence|tauto].
Qed.

(** The presence records stored in the [chat_stats] document. *)
Definition stored_presence (s : kvstore) : list jsval :=
  match prop (kv_get "chat_stats" s) "onlineUsers" with
  | JArr us => us
  | _ => []
  end.

Lemma get_stats_store (now : Z) (s : kvstore) : (get_stats now s).2 = s.
Proof.
  unfold get_stats. destruct (res_bind _ _) as [[? ?]|]; reflexivity.
Qed.

Lemma get_prop_ok (o : jsval) (k : string) (v : jsval) :
  get_prop o k = Ok v -> prop o k = v.
Proof. destruct o; simpl; congruence. Qed.

Lemma set_prop_ok_same (o o' : jsval) (k : string) (v : jsval) :
  prop o k <> JUndefined -> set_prop o k v = Ok o' -> prop o' k = v.
Proof.
  destruct o; simpl; intros Hk H; try congruence.
  injection H as <-. simpl. apply assoc_get_set_eq.
Qed.

Lemma set_prop_ok_other (o o' : jsval) (k k2 : string) (v : jsval) :
  k <> k2 -> set_prop o k v = Ok o' -> prop o' k2 = prop o k2.
Proof.
  destruct o; simpl; intros Hk H; try congruence.
  all: injection H as <-; simpl; try reflexivity; apply assoc_get_set_ne, Hk.
Qed.

(** What a successful POST /presence did. *)
Lemma presence_success (now : Z) (fs : list (string * jsval)) (s : kvstore) :
  status (presence now (JObj fs) s).1 = 200 ->
  let stats := js_or (kv_get "chat_stats" s) stats_default in
  exists stats1 us us1 kept stats2,
    views_step (prop (JObj fs) "isNewVisit") stats = Ok stats1 /\
    prop stats1 "onlineUsers" = JArr us /\
    touch (prop (JObj fs) "userId") now us = Ok us1 /\
    res_filter (in_window now) us1 = Ok kept /\
    set_prop stats1 "onlineUsers" (JArr kept) = Ok stats2 /\
    presence now (JObj fs) s =
      (ok_json [("views", prop stats2 "views");
                ("onlineCount", JNum (Z.of_nat (length kept)))],
       kv_set "chat_stats" stats2 s).
Proof.
  intros H stats. cbn [presence] in H |- *. fold stats in H |- *.
  destruct (presence_stats now _ _ stats) as [[st n]|] eqn:E; [|discriminate H].
  unfold presence_stats in E. res_inv E.
  match type of E with
  | match ?o with _ => _ end = _ => destruct o as [| | | | | |us|]; try discriminate E
  end.
  res_inv E. injection E as <- <-.
  exists a, us, a0, a1, a2. repeat split; try assumption.
  apply get_prop_ok in Hm0. exact Hm0.
Qed.

Lemma views_step_online (isNewVisit stats stats1 : jsval) :
  views_step isNewVisit stats = Ok stats1 ->
  prop stats1 "onlineUsers" = prop stats "onlineUsers".
Proof.
  intros H. unfold views_step in H.
  destruct (truthy isNewVisit); cbv beta iota in H.
  - res_inv H. eapply set_prop_ok_other; [|exact H]. discriminate.
  - injection H as <-. reflexivity.
Qed.

Definition stale_record : jsval := JObj [("id", JStr "a"); ("lastSeen", JNum 0)].
Definition stale_store : kvstore :=
  {["chat_stats" := JObj [("views", JNum 3); ("onlineUsers", JArr [stale_record])]]}.

(** C2 (counterexample): a stats read does not prune the stored presence
    records: at time 20000 the record last seen at 0, outside the
    10-second window, is still stored after GET /stats. *)
Lemma stats_read_keeps_stale_records :
  ~ (forall (now : Z) (s : kvstore) (u : jsval),
       In u (stored_presence (get_stats now s).2) -> in_window now u = Ok true).
Proof.
  intros H. specialize (H 20000 stale_store stale_record).
  rewrite get_stats_store in H.
  assert (Hin : In stale_record (stored_presence stale_store))
    by (vm_compute; left; reflexivity).
  specialize (H Hin). vm_compute in H. discriminate H.
Qed.

(** C2 (amended): a stats read leaves the store as it is and counts the
    stored records with [now - lastSeen < 10000]; a presence update stores
    exactly the records, after refreshing or adding the caller's, with
    [now - lastSeen < 10000]. *)
Theorem presence_prunes_stats_counts (now : Z) (fs : list (string * jsval)) (s : kvstore) :
  ((get_stats now s).2 = s /\
   forall sfs us kept,
     js_or (kv_get "chat_stats" s) stats_default = JObj sfs ->
     assoc_get sfs "onlineUsers" = JArr us ->
     res_filter (in_window now) us = Ok kept ->
     prop (payload (get_stats now s).1) "onlineCount" = JNum (Z.of_nat (length kept))) /\
  (status (presence now (JObj fs) s).1 = 200 ->
     exists us us1,
       prop (js_or (kv_get "chat_stats" s) stats_default) "onlineUsers" = JArr us /\
       touch (prop (JObj fs) "userId") now us = Ok us1 /\
       forall u, In u (stored_presence (presence now (JObj fs) s).2) <->
                 In u us1 /\ in_window now u = Ok true).
Proof.
  split; [split|].
  - apply get_stats_store.
  - intros sfs us kept Hs Hus Hk. unfold get_stats. rewrite Hs. simpl.
    rewrite Hus. simpl. rewrite Hk. simpl. reflexivity.
  - intros H.
    destruct (presence_success now fs s H)
      as (stats1 & us & us1 & kept & stats2 & Hv & Hus & Ht & Hk & Hset & Heq).
    exists us, us1. split; [|split; [exact Ht|]].
    + rewrite <- (views_step_online _ _ _ Hv). exact Hus.
    + intros u. rewrite Heq. unfold stored_presence, kv_get, kv_set. simpl.
      rewrite lookup_insert_eq.
      rewrite (set_prop_ok_same _ _ _ _ ltac:(rewrite Hus; discriminate) Hset).
      apply res_filter_spec, Hk.
Qed.

Lemma presence_prunes_stats_counts_witness :
  prop (payload (get_stats 20000 stale_store).1) "onlineCount" = JNum 0 /\
  stored_presence (presence 20000 (JObj [("userId", JStr "b")]) stale_store).2
    = [JObj [("id", JStr "b"); ("lastSeen", JNum 20000)]].
Proof.
  destruct (presence_prunes_stats_counts 20000 [("userId", JStr "b")] stale_store)
    as [[_ Hget] _].
  split.
  - apply (Hget [("views", JNum 3); ("onlineUsers", JArr [stale_record])]
                [stale_record] []); vm_compute; reflexivity.
  - vm_compute. reflexivity.
Defined.

(** ** The view counter *)

Definition is_obj (v : jsval) : Prop := exists fs, v = JObj fs.

(** The shape every [chat_stats] document written by the backend has. *)
Definition stats_doc_ok (d : jsval) : Prop :=
  exists sfs n us,
    d = JObj sfs /\ assoc_get sfs "views" = JNum n /\
    assoc_get sfs "onlineUsers" = JArr us /\ Forall is_obj us.

Definition stats_ok (s : kvstore) : Prop :=
  s !! "chat_stats" = None \/
  exists d, s !! "chat_stats" = Some d /\ stats_doc_ok d.

(** The view count a stats read reports (0 before any presence update). *)
Definition view_count (s : kvstore) : Z :=
  match s !! "chat_stats" with
  | Some d => match prop d "views" with JNum n => n | _ => 0 end
  | None => 0
  end.

Definition new_visit (rq : request) : bool :=
  match rq with
  | Presence _ b =>
      match b with
      | JUndefined | JNull => false
      | _ => truthy (prop b "isNewVisit")
      end
  | _ => false
  end.

Lemma msg_key_not_stats (id : jsval) : msg_key id <> "chat_stats".
Proof. unfold msg_key. simpl. discriminate. Qed.

Lemma find_index_objs (userId : jsval) (us : list jsval) :
  Forall is_obj us ->
  exists r, res_find_index
              (fun u => let! uid := get_prop u "id" in Ok (strict_eq uid userId))
              us = Ok r.
Proof.
  induction 1 as [|u us [f ->] _ [r IH]]; simpl; [eauto|].
  destruct (strict_eq (assoc_get f "id") userId); [eauto|].
  rewrite IH. simpl. eauto.
Qed.

Lemma touch_objs (userId : jsval) (now : Z) (us : list jsval) :
  Forall is_obj us ->
  exists us1, touch userId now us = Ok us1 /\ Forall is_obj us1.
Proof.
  intros Hus. unfold touch.
  destruct (find_index_objs userId us Hus) as [r Hr]. rewrite Hr. simpl.
  destruct r as [i|].
  - destruct (us !! i) as [u|] eqn:Hi; [|eauto].
    assert (Hu : is_obj u) by (eapply Forall_lookup_1; eauto).
    destruct Hu as [f ->]. simpl. eexists; split; [reflexivity|].
    apply Forall_insert; [exact Hus|eexists; reflexivity].
  - eexists; split; [reflexivity|].
    apply Forall_app; split; [exact Hus|]. constructor; [eexists; reflexivity|constructor].
Qed.

Lemma filter_objs (now : Z) (l : list jsval) :
  Forall is_obj l ->
  exists kept, res_filter (in_window now) l = Ok kept /\ Forall is_obj kept.
Proof.
  induction 1 as [|u l [f ->] _ [kept [IH Hk]]]; simpl; [eauto|].
  rewrite IH. simpl.
  eexists; split; [reflexivity|].
  destruct (match to_number (assoc_get f "lastSeen") with
            | Some t => now - t <? 10000 | None => false end);
    [constructor; [eexists; reflexivity|exact Hk]|exact Hk].
Qed.

Lemma stats_value (s : kvstore) :
  stats_ok s ->
  exists sfs us,
    js_or (kv_get "chat_stats" s) stats_default = JObj sfs /\
    assoc_get sfs "views" = JNum (view_count s) /\
    assoc_get sfs "onlineUsers" = JArr us /\ Forall is_obj us.
Proof.
  unfold stats_ok, view_count, kv_get.
  intros [Hn|(d & Hd & sfs & n & us & -> & Hv & Hu & Hf)].
  - rewrite Hn. exists [("views", JNum 0); ("onlineUsers", JArr [])], [].
    repeat split; constructor.
  - rewrite Hd. simpl. rewrite Hv. exists sfs, us. repeat split; assumption.
Qed.

Lemma js_add_one_views (n : Z) : js_add_one (js_or (JNum n) (JNum 0)) = Ok (JNum (n + 1)).
Proof.
  unfold js_or, truthy. destruct (Z.eqb_spec n 0) as [->|]; reflexivity.
Qed.

Lemma presence_stats_ok (now : Z) (userId isNewVisit : jsval)
      (sfs : list (string * jsval)) (n : Z) (us : list jsval) :
  assoc_get sfs "views" = JNum n -> assoc_get sfs "onlineUsers" = JArr us ->
  Forall is_obj us ->
  exists d cnt,
    presence_stats now userId isNewVisit (JObj sfs) = Ok (d, cnt) /\
    stats_doc_ok d /\
    prop d "views" = JNum (n + if truthy isNewVisit then 1 else 0).
Proof.
  intros Hv Hu Hf.
  assert (H1 : exists sfs1,
    views_step isNewVisit (JObj sfs) = Ok (JObj sfs1) /\
    assoc_get sfs1 "views" = JNum (n + if truthy isNewVisit then 1 else 0) /\
    assoc_get sfs1 "onlineUsers" = JArr us).
  { unfold views_step. destruct (truthy isNewVisit).
    - cbn [prop]. rewrite Hv, js_add_one_views. cbn [res_bind set_prop].
      eexists; split; [reflexivity|]. split.
      + apply assoc_get_set_eq.
      + rewrite assoc_get_set_ne by discriminate. exact Hu.
    - exists sfs. rewrite Z.add_0_r. repeat split; assumption. }
  destruct H1 as (sfs1 & Hs1 & Hv1 & Hu1).
  unfold presence_stats. rewrite Hs1. cbn [res_bind get_prop prop]. rewrite Hu1.
  destruct (touch_objs userId now us Hf) as [us1 [Ht Hf1]]. rewrite Ht.
  cbn [res_bind].
  destruct (filter_objs now us1 Hf1) as [kept [Hk Hfk]]. rewrite Hk.
  cbn [res_bind set_prop].
  eexists _, _; split; [reflexivity|]. split.
  - eexists _, _, kept. split; [reflexivity|]. split; [|split; [|exact Hfk]].
    + rewrite assoc_get_set_ne by discriminate. exact Hv1.
    + apply assoc_get_set_eq.
  - cbn [prop]. rewrite assoc_get_set_ne by discriminate. exact Hv1.
Qed.

Lemma presence_view_count (now : Z) (b : jsval) (s : kvstore) :
  stats_ok s -> b <> JUndefined -> b <> JNull ->
  stats_ok (presence now b s).2 /\
  view_count (presence now b s).2 =
    view_count s + (if truthy (prop b "isNewVisit") then 1 else 0).
Proof.
  intros Hs Hb1 Hb2.
  destruct (stats_value s Hs) as (sfs & us & Hst & Hv & Hu & Hf).
  assert (Hunf : presence now b s =
    match presence_stats now (prop b "userId") (prop b "isNewVisit")
            (js_or (kv_get "chat_stats" s) stats_default) with
    | Ok (stats2, n) =>
        (ok_json [("views", prop stats2 "views"); ("onlineCount", JNum (Z.of_nat n))],
         kv_set "chat_stats" stats2 s)
    | Throw => (err500, s)
    end) by (destruct b; congruence || reflexivity).
  rewrite Hunf, Hst.
  destruct (presence_stats_ok now (prop b "userId") (prop b "isNewVisit") sfs _ us Hv Hu Hf)
    as (d & cnt & Hp & Hd & Hdv).
  rewrite Hp. cbn [snd]. unfold kv_set. split.
  - right. exists d. split; [apply lookup_insert_eq|exact Hd].
  - unfold view_count at 1. rewrite lookup_insert_eq, Hdv. reflexivity.
Qed.

Lemma edit_message_store (now : Z) (b : jsval) (s : kvstore) :
  (edit_message now b s).2 = s \/
  exists v, (edit_message now b s).2 = <[msg_key (prop b "id") := v]> s.
Proof.
  destruct (Z.eq_dec (status (edit_message now b s).1) 200) as [H|H].
  - destruct (edit_message_success now b s H) as (t & ofs & _ & _ & _ & _ & ->).
    right. eexists. reflexivity.
  - left. revert H. unfold edit_message, kv_set.
    repeat case_match; simpl; congruence.
Qed.

Lemma delete_messages_store (b : jsval) (s : kvstore) :
  (delete_messages b s).2 = s \/
  exists xs, (delete_messages b s).2 = kv_mdel (map msg_key xs) s.
Proof.
  unfold delete_messages. repeat case_match; simpl; eauto.
Qed.

Lemma update_settings_store (b : jsval) (s : kvstore) :
  (update_settings b s).2 = s \/ (update_settings b s).2 = <["chat_settings" := b]> s.
Proof.
  unfold update_settings, kv_set_checked, kv_set. destruct b; cbn [snd]; auto.
Qed.

Lemma handle_keeps_stats (rq : request) (s : kvstore) :
  (forall now b, rq <> Presence now b) ->
  (handle rq s).2 !! "chat_stats" = s !! "chat_stats".
Proof.
  intros Hrq. destruct rq as [|b|b|now b|ok| |b|now|now b|ok]; cbn [handle].
  - reflexivity.
  - destruct b; cbn [create_message snd]; try reflexivity;
      unfold kv_set; apply lookup_insert_ne, msg_key_not_stats.
  - destruct (delete_messages_store b s) as [->|[xs ->]]; [reflexivity|].
    rewrite kv_mdel_lookup, decide_False; [reflexivity|].
    intros Hin. apply list_elem_of_fmap in Hin as [y [Hy _]].
    symmetry in Hy. exact (msg_key_not_stats y Hy).
  - destruct (edit_message_store now b s) as [->|[v ->]]; [reflexivity|].
    apply lookup_insert_ne, msg_key_not_stats.
  - reflexivity.
  - reflexivity.
  - destruct (update_settings_store b s) as [->| ->]; [reflexivity|].
    apply lookup_insert_ne. discriminate.
  - rewrite get_stats_store. reflexivity.
  - exfalso. exact (Hrq now b eq_refl).
  - reflexivity.
Qed.

Lemma handle_view_count (rq : request) (s : kvstore) :
  stats_ok s ->
  stats_ok (handle rq s).2 /\
  view_count (handle rq s).2 = view_count s + (if new_visit rq then 1 else 0).
Proof.
  intros Hs. destruct rq as [|b|b|now b|ok| |b|now|now b|ok].
  9: {
    assert (Hnull : (b = JUndefined \/ b = JNull) \/ (b <> JUndefined /\ b <> JNull))
      by (destruct b; [left; left|left; right|right; split; discriminate ..]; reflexivity).
    destruct Hnull as [[-> | ->] | [Hb1 Hb2]];
      [cbn [handle presence snd new_visit]; rewrite Z.add_0_r; split; [exact Hs|reflexivity] ..|].
    cbn [handle new_visit].
    replace (match b with JUndefined | JNull => false
             | _ => truthy (prop b "isNewVisit") end)
      with (truthy (prop b "isNewVisit")) by (destruct b; congruence).
    apply presence_view_count; assumption. }
  all: match goal with
       | |- context [handle ?rq _] =>
           assert (Hk : (handle rq s).2 !! "chat_stats" = s !! "chat_stats")
             by (apply handle_keeps_stats; discriminate)
       end;
       cbn [new_visit]; rewrite Z.add_0_r;
       unfold stats_ok, view_count; rewrite Hk; split; [exact Hs|reflexivity].
Qed.

Lemma reachable_stats_ok (s : kvstore) : reachable s -> stats_ok s.
Proof.
  induction 1 as [|rq s _ IH].
  - left. apply lookup_empty.
  - apply handle_view_count, IH.
Qed.

(** C10 (amended): with requests handled one at a time (every store
    [reachable] from the empty one by whole requests), no request
    decreases the view count; a presence update flagged as a new visit
    raises it by exactly one and every other request leaves it as it is. *)
Theorem view_count_monotone (rq : request) (s : kvstore) :
  reachable s ->
  view_count (handle rq s).2 = view_count s + (if new_visit rq then 1 else 0) /\
  view_count s <= view_count (handle rq s).2.
Proof.
  intros Hr. destruct (handle_view_count rq s (reachable_stats_ok s Hr)) as [_ H].
  split; [exact H|]. rewrite H. destruct (new_visit rq); lia.
Qed.

Lemma view_count_monotone_witness :
  view_count (handle (Presence 5 (JObj [("userId", JStr "u"); ("isNewVisit", JBool true)]))
                     (handle (Presence 1 (JObj [("userId", JStr "u"); ("isNewVisit", JBool true)])) ∅).2).2 = 2 /\
  view_count (handle (Presence 1 (JObj [("userId", JStr "u"); ("isNewVisit", JBool true)])) ∅).2 = 1.
Proof.
  assert (H0 : reachable ∅) by constructor.
  pose proof (reach_step (Presence 1 (JObj [("userId", JStr "u"); ("isNewVisit", JBool true)])) ∅ H0) as H1.
  destruct (view_count_monotone (Presence 1 (JObj [("userId", JStr "u"); ("isNewVisit", JBool true)])) ∅ H0)
    as [E1 _].
  destruct (view_count_monotone (Presence 5 (JObj [("userId", JStr "u"); ("isNewVisit", JBool true)])) _ H1)
    as [E2 _].
  rewrite E2, E1. split; vm_compute; reflexivity.
Defined.

(** Run one at a time, the two steps of a presence update are the
    handler [presence]. *)
Lemma presence_read_write (now : Z) (b : jsval) (s : kvstore) :
  presence_write (presence_read now b s) s = (presence now b s).2.
Proof.
  unfold presence_write, presence_read, presence.
  destruct b; try reflexivity; repeat case_match; reflexivity.
Qed.

Definition w_visit (u : string) : jsval :=
  JObj [("userId", JStr u); ("isNewVisit", JBool true)].

(** Visitor [a] has read the stats (no views yet) at time 1; visitors
    [b] and [c] then complete their presence updates. *)
Definition w_race_before : server :=
  let s1 := presence_write (presence_read 2 (w_visit "b") ∅) ∅ in
  (presence_write (presence_read 3 (w_visit "c") s1) s1,
   [presence_read 1 (w_visit "a") ∅]).

Definition w_race_after : server :=
  (presence_write (presence_read 1 (w_visit "a") ∅) w_race_before.1, []).

(** C10 (counterexample): with requests in flight the stored view count
    can decrease.  Three presence updates flagged as new visits overlap:
    the first reads the stats before the other two complete, and its
    [kv.set], landing last, overwrites the count 2 with 1: two visits are
    lost and the last step lowers the count. *)
Lemma presence_race_lowers_views :
  creachable w_race_before /\ cstep w_race_before w_race_after /\
  view_count w_race_before.1 = 2 /\ view_count w_race_after.1 = 1.
Proof.
  split; [|split; [|split; vm_compute; reflexivity]].
  - set (pa := presence_read 1 (w_visit "a") ∅).
    set (s1 := presence_write (presence_read 2 (w_visit "b") ∅) ∅).
    assert (R1 : creachable (∅, [pa])).
    { eapply creach_step; [apply creach_init|apply cstep_read]. }
    assert (R2 : creachable (∅, [presence_read 2 (w_visit "b") ∅; pa])).
    { eapply creach_step; [exact R1|apply cstep_read]. }
    assert (R3 : creachable (s1, [pa])).
    { eapply creach_step; [exact R2|apply (cstep_write ∅ [] _ [pa])]. }
    assert (R4 : creachable (s1, [presence_read 3 (w_visit "c") s1; pa])).
    { eapply creach_step; [exact R3|apply cstep_read]. }
    eapply creach_step; [exact R4|apply (cstep_write s1 [] _ [pa])].
  - apply (cstep_write w_race_before.1 [] (presence_read 1 (w_visit "a") ∅) []).
Qed.

(** ** The spoiler parser *)

(** Let [simpl] and [cbn] compute string concatenation again. *)
#[local] Arguments String.append : simpl nomatch.

Lemma str_app_assoc (a b c : string) : (a +:+ b) +:+ c = a +:+ (b +:+ c).
Proof. induction a as [|x a IH]; cbn; [reflexivity|now rewrite IH]. Qed.

Lemma str_app_nil_r (a : string) : a +:+ EmptyString = a.
Proof. induction a as [|x a IH]; cbn; [reflexivity|now rewrite IH]. Qed.

Lemma str_length_app (a b : string) :
  String.length (a +:+ b) = (String.length a + String.length b)%nat.
Proof. induction a as [|x a IH]; cbn; [reflexivity|now rewrite IH]. Qed.

Lemma strip_prefix_spec (p s r : string) :
  strip_prefix p s = Some r -> s = p +:+ r.
Proof.
  revert s. induction p as [|a p IH]; intros [|b s] H; cbn in H; try discriminate.
  - now injection H as <-.
  - now injection H as <-.
  - destruct (Ascii.eqb_spec a b) as [->|]; [|discriminate].
    cbn. f_equal. now apply IH.
Qed.

Lemma strip_prefix_app (p s r x : string) :
  strip_prefix p s = Some r -> strip_prefix p (s +:+ x) = Some (r +:+ x).
Proof.
  revert s. induction p as [|a p IH]; intros [|b s] H; cbn in H |- *; try discriminate.
  - now injection H as <-.
  - now injection H as <-.
  - destruct (Ascii.eqb a b); [now apply IH|discriminate].
Qed.

Lemma strip_prefix_none_app (p s x : string) :
  strip_prefix p s = None -> (String.length p <= String.length s)%nat ->
  strip_prefix p (s +:+ x) = None.
Proof.
  revert s. induction p as [|a p IH]; intros [|b s] H Hl; cbn in H, Hl |- *;
    try discriminate; try lia.
  destruct (Ascii.eqb a b); [apply IH; [exact H|lia]|reflexivity].
Qed.

Lemma break_char_spec (c : ascii) (s x y : string) :
  break_char c s = Some (x, y) -> s = x +:+ String c y /\ break_char c x = None.
Proof.
  revert x y. induction s as [|a s IH]; intros x y H; cbn in H; [discriminate|].
  destruct (Ascii.eqb_spec a c) as [->|Hne].
  - injection H as <- <-. split; reflexivity.
  - destruct (break_char c s) as [[x' y']|] eqn:E; [|discriminate].
    injection H as <- <-. destruct (IH x' y' eq_refl) as [-> Hx].
    split; [reflexivity|]. cbn. destruct (Ascii.eqb_spec a c); [contradiction|].
    now rewrite Hx.
Qed.

Lemma break_char_app (c : ascii) (s x y z : string) :
  break_char c s = Some (x, y) -> break_char c (s +:+ z) = Some (x, y +:+ z).
Proof.
  revert x y. induction s as [|a s IH]; intros x y H; cbn in H |- *; [discriminate|].
  destruct (Ascii.eqb a c).
  - now injection H as <- <-.
  - destruct (break_char c s) as [[x' y']|] eqn:E; [|discriminate].
    injection H as <- <-. now rewrite (IH x' y' eq_refl).
Qed.

Lemma break_str_split (p s x y : string) :
  break_str p s = Some (x, y) -> s = x +:+ p +:+ y.
Proof.
  revert x y. induction s as [|a s IH]; intros x y H; cbn in H;
    destruct (strip_prefix p _) as [r|] eqn:Ep.
  - injection H as <- <-. exact (strip_prefix_spec _ _ _ Ep).
  - discriminate.
  - injection H as <- <-. exact (strip_prefix_spec _ _ _ Ep).
  - destruct (break_str p s) as [[x' y']|] eqn:E; [|discriminate].
    injection H as <- <-. cbn. f_equal. now apply IH.
Qed.

Lemma break_str_first (p s x y : string) :
  p <> EmptyString -> break_str p s = Some (x, y) -> break_str p x = None.
Proof.
  intros Hp. revert x y. induction s as [|a s IH]; intros x y H; cbn in H;
    destruct (strip_prefix p _) as [r|] eqn:Ep.
  - injection H as <- <-. cbn. destruct p; [contradiction|reflexivity].
  - discriminate.
  - injection H as <- <-. cbn. destruct p; [contradiction|reflexivity].
  - destruct (break_str p s) as [[x' y']|] eqn:E; [|discriminate].
    injection H as <- <-. cbn.
    destruct (strip_prefix p (String a x')) as [r'|] eqn:Ep'.
    + apply (strip_prefix_app _ _ _ (p +:+ y')) in Ep'.
      rewrite (break_str_split p s x' y' E) in Ep. cbn in Ep, Ep'. congruence.
    + now rewrite (IH x' y' eq_refl).
Qed.

Lemma break_str_unfold (p s : string) :
  break_str p s =
  match strip_prefix p s with
  | Some r => Some (EmptyString, r)
  | None =>
      match s with
      | EmptyString => None
      | String a s' =>
          match break_str p s' with
          | Some (x, y) => Some (String a x, y)
          | None => None
          end
      end
  end.
Proof. destruct s; reflexivity. Qed.

Lemma break_str_app (p s x y z : string) :
  break_str p s = Some (x, y) -> break_str p (s +:+ z) = Some (x, y +:+ z).
Proof.
  revert x y. induction s as [|a s IH]; intros x y H; rewrite break_str_unfold in H;
    destruct (strip_prefix p _) as [r|] eqn:Ep.
  - injection H as <- <-. rewrite break_str_unfold.
    now rewrite (strip_prefix_app _ _ _ z Ep).
  - discriminate.
  - injection H as <- <-. rewrite break_str_unfold.
    now rewrite (strip_prefix_app _ _ _ z Ep).
  - destruct (break_str p s) as [[x' y']|] eqn:E; [|discriminate].
    injection H as <- <-. rewrite break_str_unfold.
    rewrite (strip_prefix_none_app p (String a s) z Ep).
    + cbn [String.append]. now rewrite (IH x' y' eq_refl).
    + rewrite (break_str_split p s x' y' E). cbn.
      rewrite !str_length_app. lia.
Qed.

Lemma spoiler_at_spec (s t c r : string) :
  spoiler_at s = Some (t, c, r) ->
  s = part_text (Spoiler t c) +:+ r /\
  break_char "]"%char t = None /\ break_str spoiler_close c = None.
Proof.
  unfold spoiler_at. destruct (strip_prefix spoiler_open s) as [r1|] eqn:E1; [|discriminate].
  destruct (break_char "]"%char r1) as [[t' r2]|] eqn:E2; [|discriminate].
  destruct (break_str spoiler_close r2) as [[c' r']|] eqn:E3; [|discriminate].
  intros H. injection H as <- <- <-.
  destruct (break_char_spec _ _ _ _ E2) as [Hr1 Ht].
  split; [|split; [exact Ht|exact (break_str_first spoiler_close _ _ _ ltac:(unfold spoiler_close; discriminate) E3)]].
  rewrite (strip_prefix_spec _ _ _ E1), Hr1, (break_str_split _ _ _ _ E3).
  cbn [part_text]. rewrite !str_app_assoc. reflexivity.
Qed.

Lemma spoiler_at_app (s t c r z : string) :
  spoiler_at s = Some (t, c, r) -> spoiler_at (s +:+ z) = Some (t, c, r +:+ z).
Proof.
  unfold spoiler_at. destruct (strip_prefix spoiler_open s) as [r1|] eqn:E1; [|discriminate].
  destruct (break_char "]"%char r1) as [[t' r2]|] eqn:E2; [|discriminate].
  destruct (break_str spoiler_close r2) as [[c' r']|] eqn:E3; [|discriminate].
  intros H. injection H as <- <- <-.
  rewrite (strip_prefix_app _ _ _ z E1), (break_char_app _ _ _ _ z E2),
    (break_str_app _ _ _ _ z E3). reflexivity.
Qed.

Lemma find_spoiler_spec (s b t c r : string) :
  find_spoiler s = Some (b, t, c, r) ->
  s = b +:+ part_text (Spoiler t c) +:+ r /\
  break_char "]"%char t = None /\ break_str spoiler_close c = None /\
  find_spoiler b = None.
Proof.
  revert b. induction s as [|a s IH]; intros b H; cbn [find_spoiler] in H;
    destruct (spoiler_at _) as [[[t' c'] r']|] eqn:Ea.
  - vm_compute in Ea. discriminate.
  - discriminate.
  - injection H as <- <- <- <-. destruct (spoiler_at_spec _ _ _ _ Ea) as (-> & ? & ?).
    repeat split; try assumption; reflexivity.
  - destruct (find_spoiler s) as [[[[b' t1] c1] r1]|] eqn:E; [|discriminate].
    injection H as <- <- <- <-.
    destruct (IH b' eq_refl) as (Hs & Ht & Hc & Hb).
    split; [cbn; now f_equal|]. split; [exact Ht|]. split; [exact Hc|].
    cbn [find_spoiler].
    destruct (spoiler_at (String a b')) as [[[t2 c2] r2]|] eqn:Eb.
    + apply (spoiler_at_app _ _ _ _ (part_text (Spoiler t1 c1) +:+ r1)) in Eb.
      rewrite Hs in Ea. cbn [String.append] in Eb. congruence.
    + now rewrite Hb.
Qed.

Definition join_parts (ps : list part) : string :=
  fold_right (fun p acc => part_text p +:+ acc) EmptyString ps.

Lemma join_parts_app (ps qs : list part) :
  join_parts (ps ++ qs) = join_parts ps +:+ join_parts qs.
Proof.
  induction ps as [|p ps IH]; [reflexivity|].
  change (part_text p +:+ join_parts (ps ++ qs) =
          (part_text p +:+ join_parts ps) +:+ join_parts qs).
  now rewrite IH, str_app_assoc.
Qed.

Lemma spoiler_loop_spec (fuel : nat) (s : string) :
  join_parts (spoiler_loop fuel s) = s /\
  (forall t c, In (Spoiler t c) (spoiler_loop fuel s) ->
     break_char "]"%char t = None /\ break_str spoiler_close c = None).
Proof.
  revert s. induction fuel as [|f IH]; intros s.
  - destruct s; cbn; (split; [try rewrite str_app_nil_r; reflexivity|]);
      intros t c H; cbn in H; intuition discriminate.
  - cbn [spoiler_loop].
    destruct (find_spoiler s) as [[[[b t] c] r]|] eqn:E.
    + destruct (find_spoiler_spec _ _ _ _ _ E) as (Hs & Ht & Hc & _).
      destruct (IH r) as [Hj Hin]. split.
      * rewrite join_parts_app. cbn [join_parts fold_right] in *.
        fold (join_parts (spoiler_loop f r)). rewrite Hj, Hs.
        destruct b; cbn; [reflexivity|]. now rewrite str_app_nil_r.
      * intros t' c' H. apply in_app_or in H as [H|[H|H]].
        -- destruct b; cbn in H; intuition discriminate.
        -- injection H as <- <-. split; assumption.
        -- now apply Hin.
    + destruct s; cbn; (split; [try rewrite str_app_nil_r; reflexivity|]);
        intros t' c' H; cbn in H; intuition discriminate.
Qed.

Lemma spoiler_loop_text (fuel : nat) (s : string) :
  (String.length s < fuel)%nat ->
  forall u, In (Text u) (spoiler_loop fuel s) -> find_spoiler u = None.
Proof.
  revert s. induction fuel as [|f IH]; intros s Hl u Hu; [lia|].
  cbn [spoiler_loop] in Hu.
  destruct (find_spoiler s) as [[[[b t] c] r]|] eqn:E.
  - destruct (find_spoiler_spec _ _ _ _ _ E) as (Hs & _ & _ & Hb).
    apply in_app_or in Hu as [H|[H|H]].
    + destruct b; cbn in H; [contradiction|].
      destruct H as [H|[]]. injection H as <-. exact Hb.
    + discriminate.
    + apply (IH r); [|exact H].
      rewrite Hs in Hl. rewrite !str_length_app in Hl. cbn in Hl. lia.
  - destruct s; cbn in Hu; [contradiction|].
    destruct Hu as [H|[]]. injection H as <-. exact E.
Qed.

Example spoiler_parts_example :
  spoiler_parts "a[spoiler:t]x[/spoiler]b[spoiler:u]y" =
  [Text "a"; Spoiler "t" "x"; Text "b[spoiler:u]y"].
Proof. reflexivity. Qed.

(** C7: the spoiler parser loses and reorders nothing: putting the markup
    back around each spoiler block and concatenating all parts gives the
    message text back.  Every block carries the title and content of one
    markup occurrence (a title has no [']'], a content has no closing
    [[/spoiler]]), and no plain text part contains a further complete
    spoiler markup. *)
Theorem spoiler_parts_spec (text : string) :
  join_parts (spoiler_parts text) = text /\
  (forall t c, In (Spoiler t c) (spoiler_parts text) ->
     break_char "]"%char t = None /\ break_str spoiler_close c = None) /\
  (forall u, In (Text u) (spoiler_parts text) -> find_spoiler u = None).
Proof.
  destruct (spoiler_loop_spec (S (String.length text)) text) as [Hj Hsp].
  pose proof (spoiler_loop_text (S (String.length text)) text ltac:(lia)) as Htx.
  unfold spoiler_parts.
  destruct (spoiler_loop (S (String.length text)) text) as [|p ps] eqn:E.
  - cbn in Hj. subst text. split; [reflexivity|]. split.
    + intros t c H. cbn in H. intuition discriminate.
    + intros u H. cbn in H. destruct H as [H|[]]. injection H as <-. reflexivity.
  - split; [exact Hj|]. split; [exact Hsp|exact Htx].
Qed.

(** ** The URL classifier *)

Lemma classify_unquoted (text : string) :
  quoted_url text = None -> url_pattern text = true -> classify text = classify_url text.
Proof. intros Hq Hu. unfold classify. now rewrite Hq, Hu. Qed.

Lemma url_pattern_nonempty (url : string) : url_pattern url = true -> url <> EmptyString.
Proof. intros H E. subst url. discriminate H. Qed.

(** C6, refuted: a message that is one unquoted URL ending in an audio
    extension, with no YouTube, Vimeo or TikTok match, is not always shown
    as audio: a SoundCloud feed URL gets the SoundCloud player. *)
Lemma audio_url_not_always_audio :
  ~ (forall text,
       quoted_url text = None -> url_pattern text = true ->
       youtube_src text = EmptyString -> vimeo_id text = None -> tiktok_id text = None ->
       has_ext video_exts text = false -> has_ext audio_exts text = true ->
       classify text = AudioTag text).
Proof.
  intros H.
  specialize (H "https://feeds.soundcloud.com/stream/123-podcast.mp3").
  assert (E : classify "https://feeds.soundcloud.com/stream/123-podcast.mp3" =
              SoundCloudFrame "https://feeds.soundcloud.com/stream/123-podcast.mp3")
    by (vm_compute; reflexivity).
  rewrite E in H.
  discriminate (H ltac:(vm_compute; reflexivity) ltac:(vm_compute; reflexivity)
                  ltac:(vm_compute; reflexivity) ltac:(vm_compute; reflexivity)
                  ltac:(vm_compute; reflexivity) ltac:(vm_compute; reflexivity)
                  ltac:(vm_compute; reflexivity)).
Qed.

(** C6 (amended), as the code has it: for a message that is one unquoted
    http(s) URL, the checks run in this order, each reached only when
    the ones before it gave nothing.  A YouTube URL gives the URL itself
    when it has a [youtube.com/embed/] part, else the embed URL of its
    [youtu.be/] ID, else of its [v=] parameter; then a URL naming
    vimeo.com with [vimeo.com/N] gives the Vimeo player; then one naming
    tiktok.com with [video/N] the TikTok embed; then one naming twitch.tv
    with a channel the Twitch player; then one naming dailymotion.com
    with [video/ID] the Dailymotion embed; then a URL naming
    soundcloud.com gets the SoundCloud player; and a URL reaching the
    end of these checks is shown by its extension, video before audio
    before image, whether or not it names one of the sites. *)
Theorem url_classifier_order (url : string) :
  quoted_url url = None -> url_pattern url = true ->
  (forall e, is_youtube url = true -> embed_match url = Some e ->
     classify url = YouTubeFrame url) /\
  (forall id, is_youtube url = true -> embed_match url = None -> short_match url = Some id ->
     classify url = YouTubeFrame (yt_embed_prefix +:+ id)) /\
  (forall id, is_youtube url = true -> embed_match url = None -> short_match url = None ->
     watch_match url = Some id -> classify url = YouTubeFrame (yt_embed_prefix +:+ id)) /\
  (forall id, youtube_src url = EmptyString -> contains_ci "vimeo.com" url = true ->
     vimeo_id url = Some id -> classify url = VimeoFrame ("https://player.vimeo.com/video/" +:+ id)) /\
  (forall id, youtube_src url = EmptyString ->
     (if contains_ci "vimeo.com" url then vimeo_id url else None) = None ->
     contains_ci "tiktok.com" url = true -> tiktok_id url = Some id ->
     classify url = TikTokFrame ("https://www.tiktok.com/embed/v2/" +:+ id)) /\
  (forall ch, youtube_src url = EmptyString ->
     (if contains_ci "vimeo.com" url then vimeo_id url else None) = None ->
     (if contains_ci "tiktok.com" url then tiktok_id url else None) = None ->
     contains_ci "twitch.tv" url = true -> twitch_channel url = Some ch ->
     classify url = TwitchFrame ch) /\
  (forall id, youtube_src url = EmptyString ->
     (if contains_ci "vimeo.com" url then vimeo_id url else None) = None ->
     (if contains_ci "tiktok.com" url then tiktok_id url else None) = None ->
     (if contains_ci "twitch.tv" url then twitch_channel url else None) = None ->
     contains_ci "dailymotion.com" url = true -> dailymotion_id url = Some id ->
     classify url = DailymotionFrame ("https://www.dailymotion.com/embed/video/" +:+ id)) /\
  (youtube_src url = EmptyString ->
   (if contains_ci "vimeo.com" url then vimeo_id url else None) = None ->
   (if contains_ci "tiktok.com" url then tiktok_id url else None) = None ->
   (if contains_ci "twitch.tv" url then twitch_channel url else None) = None ->
   (if contains_ci "dailymotion.com" url then dailymotion_id url else None) = None ->
   (contains_ci "soundcloud.com" url = true -> classify url = SoundCloudFrame url) /\
   (contains_ci "soundcloud.com" url = false ->
     (has_ext video_exts url = true -> classify url = VideoTag url (has_ext ["m3u8"] url)) /\
     (has_ext video_exts url = false -> has_ext audio_exts url = true ->
        classify url = AudioTag url) /\
     (has_ext video_exts url = false -> has_ext audio_exts url = false ->
        has_ext image_exts url = true -> classify url = ImageTag url))).
Proof.
  intros Hq Hu. rewrite (classify_unquoted url Hq Hu).
  pose proof (url_pattern_nonempty url Hu) as Hne.
  assert (Hurl : String.eqb url EmptyString = false) by (now apply String.eqb_neq).
  unfold classify_url.
  split; [|split; [|split; [|split; [|split; [|split; [|split]]]]]].
  - intros e Hy He. unfold youtube_src, youtube_embed. rewrite Hy, He, Hurl. reflexivity.
  - intros id Hy He Hs. unfold youtube_src, youtube_embed. rewrite Hy, He, Hs.
    reflexivity.
  - intros id Hy He Hs Hw. unfold youtube_src, youtube_embed. rewrite Hy, He, Hs, Hw.
    reflexivity.
  - intros id Hy Hv Hi. rewrite Hy, Hv, Hi. reflexivity.
  - intros id Hy Hv Ht Hi. rewrite Hy, Hv, Ht, Hi. reflexivity.
  - intros ch Hy Hv Ht Hw Hc. rewrite Hy, Hv, Ht, Hw, Hc. reflexivity.
  - intros id Hy Hv Ht Hw Hd Hi. rewrite Hy, Hv, Ht, Hw, Hd, Hi. reflexivity.
  - intros Hy Hv Ht Hw Hd. rewrite Hy, Hv, Ht, Hw, Hd. cbn [String.eqb negb].
    split; [intros Hs; now rewrite Hs|intros Hs; rewrite Hs; split; [|split]].
    + intros Hx. now rewrite Hx.
    + intros Hx Ha. now rewrite Hx, Ha.
    + intros Hx Ha Hi. now rewrite Hx, Ha, Hi.
Qed.

Lemma url_classifier_order_witness :
  classify "https://youtu.be/abc" = YouTubeFrame "https://www.youtube.com/embed/abc" /\
  classify "https://www.twitch.tv/somechannel" = TwitchFrame "somechannel" /\
  classify "https://vimeo.com/about/clip.mp4" = VideoTag "https://vimeo.com/about/clip.mp4" false /\
  classify "https://x.org/a.flac" = AudioTag "https://x.org/a.flac".
Proof.
  destruct (url_classifier_order "https://youtu.be/abc"
              ltac:(vm_compute; reflexivity) ltac:(vm_compute; reflexivity))
    as (_ & Hy & _).
  destruct (url_classifier_order "https://www.twitch.tv/somechannel"
              ltac:(vm_compute; reflexivity) ltac:(vm_compute; reflexivity))
    as (_ & _ & _ & _ & _ & Ht & _).
  destruct (url_classifier_order "https://vimeo.com/about/clip.mp4"
              ltac:(vm_compute; reflexivity) ltac:(vm_compute; reflexivity))
    as (_ & _ & _ & _ & _ & _ & _ & Hv).
  destruct (url_classifier_order "https://x.org/a.flac"
              ltac:(vm_compute; reflexivity) ltac:(vm_compute; reflexivity))
    as (_ & _ & _ & _ & _ & _ & _ & Hm).
  split; [|split; [|split]].
  - apply (Hy "abc"); vm_compute; reflexivity.
  - apply (Ht "somechannel"); vm_compute; reflexivity.
  - apply (proj1 (proj2 (Hv ltac:(vm_compute; reflexivity) ltac:(vm_compute; reflexivity)
                           ltac:(vm_compute; reflexivity) ltac:(vm_compute; reflexivity)
                           ltac:(vm_compute; reflexivity)) ltac:(vm_compute; reflexivity)));
      vm_compute; reflexivity.
  - apply (proj1 (proj2 (proj2 (Hm ltac:(vm_compute; reflexivity) ltac:(vm_compute; reflexivity)
                           ltac:(vm_compute; reflexivity) ltac:(vm_compute; reflexivity)
                           ltac:(vm_compute; reflexivity)) ltac:(vm_compute; reflexivity))));
      vm_compute; reflexivity.
Defined.

(** * Further properties of the backend and the client *)

(** ** Routing *)

(** X1: the request [saveEditedMessage] sends, [PUT /messages] with the
    body [{ id, text }], matches no route: Hono answers 404 and the store
    is unchanged.  Even sent to the edit route [POST /messages/edit] the
    same body is refused with 400 (it has no [newText] and no
    [username]), again leaving the store unchanged. *)
Theorem client_edit_never_applied (messageId newText : string) (now : Z)
    (stored : bool) (s : kvstore) :
  serve client_edit_method client_edit_path now (client_edit_body messageId newText) stored s
    = (not_found, s) /\
  serve "POST" (api_prefix +:+ "/messages/edit") now
        (client_edit_body messageId newText) stored s
    = (err_json 400 "Неверные параметры", s).
Proof. split; reflexivity. Qed.

(** X2: no GET request changes the store, whatever its path. *)
Theorem get_requests_read_only (path : string) (now : Z) (body : jsval)
    (stored : bool) (s : kvstore) :
  (serve "GET" path now body stored s).2 = s.
Proof.
  unfold serve, route. cbn [String.eqb Ascii.eqb Bool.eqb].
  repeat match goal with
         | |- context [if String.eqb ?a ?b then _ else _] => destruct (String.eqb a b)
         end; cbn [handle]; try reflexivity.
  apply get_stats_store.
Qed.

(** ** Settings *)

(** X3: posting settings stores any body but null: a settings read
    afterwards returns the posted document when it is truthy and the
    default settings otherwise (after posting [false], [0] or an empty
    string).  Posting [null] fails with 500, since the table refuses a
    null document, and the next read returns the settings as they were.
    The read writes nothing. *)
Theorem settings_round_trip (b : jsval) (s : kvstore) :
  (b <> JNull -> b <> JUndefined ->
   (update_settings b s).1 = ok_json [] /\
   (get_settings (update_settings b s).2).1 =
     ok_json [("settings", if truthy b then b else default_settings)]) /\
  (b = JNull \/ b = JUndefined ->
   update_settings b s = (err500_store, s) /\
   (get_settings (update_settings b s).2).1 = (get_settings s).1) /\
  (get_settings (update_settings b s).2).2 = (update_settings b s).2.
Proof.
  split; [|split; [|reflexivity]].
  - intros H1 H2. unfold update_settings, kv_set_checked.
    destruct b; try congruence; cbn [get_settings fst snd]; unfold kv_get, kv_set;
      rewrite lookup_insert_eq; split; reflexivity.
  - intros [-> | ->]; split; reflexivity.
Qed.

Lemma ok_json_settings (v : jsval) :
  assoc_get [("success", JBool true); ("settings", v)] "settings" = v.
Proof. reflexivity. Qed.

(** X4: the settings documents [setBgFromUrl] and [applyTheme] post come
    back from the next settings read with the new background (the trimmed
    URL), respectively the new panel color, icon color and opacity, while
    every other setting keeps the value it had in the client. *)
Theorem client_settings_round_trip (fs : list (string * jsval)) (s : kvstore)
    (bgUrl themePanel themeIcon : string) (themeOpacity : jsval) :
  (let got := prop (payload (get_settings
                (update_settings (bg_url_settings (JObj fs) bgUrl) s).2).1) "settings" in
   prop got "backgroundImage" = JStr (js_trim bgUrl) /\
   forall k, k <> "backgroundImage" -> prop got k = prop (JObj fs) k) /\
  (let got := prop (payload (get_settings
                (update_settings (theme_settings (JObj fs) themePanel themeIcon themeOpacity)
                   s).2).1) "settings" in
   prop got "panelColor" = JStr themePanel /\
   prop got "iconColor" = JStr themeIcon /\
   prop got "panelOpacity" = themeOpacity /\
   forall k, k <> "panelColor" -> k <> "iconColor" -> k <> "panelOpacity" ->
     prop got k = prop (JObj fs) k).
Proof.
  unfold bg_url_settings, theme_settings.
  cbn [get_settings update_settings kv_set_checked fst snd]. unfold kv_get, kv_set.
  rewrite !lookup_insert_eq. cbn [js_or truthy negb]. cbn [spread prop payload ok_json].
  rewrite !ok_json_settings. unfold js_or. cbn [truthy negb prop]. split; [split|split; [|split; [|split]]].
  - apply assoc_get_set_eq.
  - intros k Hk. apply assoc_get_set_ne. congruence.
  - rewrite !assoc_get_set_ne by discriminate. apply assoc_get_set_eq.
  - rewrite assoc_get_set_ne by discriminate. apply assoc_get_set_eq.
  - apply assoc_get_set_eq.
  - intros k H1 H2 H3. rewrite !assoc_get_set_ne by congruence. reflexivity.
Qed.

(** ** Messages under the other routes *)

Lemma presence_store (now : Z) (b : jsval) (s : kvstore) :
  (presence now b s).2 = s \/
  exists d, (presence now b s).2 = <["chat_stats" := d]> s.
Proof. unfold presence, kv_set. repeat case_match; simpl; eauto. Qed.

Lemma msg_prefix_not_fixed (k : string) :
  String.prefix "msg_" k = true -> k <> "chat_stats" /\ k <> "chat_settings".
Proof. intros H. split; intros ->; discriminate H. Qed.

Lemma handle_other_msg_lookup (rq : request) (s : kvstore) (k : string) :
  (forall b, rq <> CreateMessage b) ->
  (forall b, rq <> DeleteMessages b) ->
  (forall now b, rq <> EditMessage now b) ->
  String.prefix "msg_" k = true ->
  (handle rq s).2 !! k = s !! k.
Proof.
  intros Hc Hd He Hk. destruct (msg_prefix_not_fixed k Hk) as [Hk1 Hk2].
  destruct rq as [|b|b|now b|ok| |b|now|now b|ok]; cbn [handle].
  - reflexivity.
  - exfalso. exact (Hc b eq_refl).
  - exfalso. exact (Hd b eq_refl).
  - exfalso. exact (He now b eq_refl).
  - reflexivity.
  - reflexivity.
  - destruct (update_settings_store b s) as [->| ->]; [reflexivity|].
    apply lookup_insert_ne. congruence.
  - rewrite get_stats_store. reflexivity.
  - destruct (presence_store now b s) as [->|[d ->]]; [reflexivity|].
    apply lookup_insert_ne. congruence.
  - reflexivity.
Qed.


(** X5: only creating, deleting and editing touch the stored messages:
    every other request (listing, settings, stats, presence, uploads)
    leaves each document under a [msg_] key as it was. *)
Theorem other_routes_keep_messages (rq : request) (s : kvstore) (k : string) :
  (forall b, rq <> CreateMessage b) ->
  (forall b, rq <> DeleteMessages b) ->
  (forall now b, rq <> EditMessage now b) ->
  String.prefix "msg_" k = true ->
  (handle rq s).2 !! k = s !! k.
Proof. apply handle_other_msg_lookup. Qed.

Lemma other_routes_keep_messages_witness :
  (handle (Presence 1 (JObj [("userId", JStr "u")])) {["msg_1" := JNull]}).2 !! "msg_1"
    = Some JNull.
Proof.
  rewrite (other_routes_keep_messages (Presence 1 (JObj [("userId", JStr "u")]))
             {["msg_1" := JNull]} "msg_1");
    [vm_compute; reflexivity|discriminate ..|reflexivity].
Defined.

(** X6: a delete request with the right password whose [ids] is missing or
    not an array fails with 500 ([ids.map] throws) and deletes nothing. *)
Theorem delete_needs_id_array (fs : list (string * jsval)) (s : kvstore) :
  prop (JObj fs) "password" = JStr "Ramakrishna" ->
  (forall xs, prop (JObj fs) "ids" <> JArr xs) ->
  delete_messages (JObj fs) s = (err500, s).
Proof.
  intros Hpw Hids. unfold delete_messages. rewrite Hpw. cbn [strict_eq String.eqb].
  cbn -[prop]. destruct (prop (JObj fs) "ids"); try reflexivity.
  exfalso. exact (Hids xs eq_refl).
Qed.

Lemma delete_needs_id_array_witness :
  delete_messages (JObj [("ids", JStr "1"); ("password", JStr "Ramakrishna")])
    {["msg_1" := JNull]} = (err500, {["msg_1" := JNull]}).
Proof.
  apply delete_needs_id_array; [reflexivity|discriminate].
Defined.

(** ** Presence *)

Lemma find_index_some (p : jsval -> res bool) (l : list jsval) (i : nat) :
  res_find_index p l = Ok (Some i) -> exists u, l !! i = Some u /\ p u = Ok true.
Proof.
  revert i. induction l as [|x l IH]; intros i H; cbn [res_find_index] in H.
  - discriminate.
  - destruct (p x) as [[]|] eqn:Hp; cbn [res_bind] in H.
    + injection H as <-. exists x. split; [reflexivity|exact Hp].
    + destruct (res_find_index p l) as [[j|]|] eqn:E; cbn in H; try discriminate.
      injection H as <-. destruct (IH j eq_refl) as [u [Hu Hpu]].
      exists u. split; [exact Hu|exact Hpu].
    + discriminate.
Qed.

(** After [touch], the caller's record is an object with its id and
    [lastSeen = now]. *)
Lemma touch_caller (userId : jsval) (now : Z) (us us1 : list jsval) :
  Forall is_obj us -> touch userId now us = Ok us1 ->
  exists f, In (JObj f) us1 /\ assoc_get f "id" = userId /\
            assoc_get f "lastSeen" = JNum now.
Proof.
  intros Hus H. unfold touch in H. res_inv H.
  destruct a as [i|].
  - destruct (find_index_some _ _ _ Hm) as [u [Hu Hp]]. rewrite Hu in H.
    assert (Hobj : is_obj u) by (eapply Forall_lookup_1; eauto).
    destruct Hobj as [f ->]. cbn in Hp. injection Hp as Hid.
    apply strict_eq_true in Hid.
    cbn [set_prop res_bind] in H. injection H as <-.
    exists (assoc_set f "lastSeen" (JNum now)). split; [|split].
    + apply list_elem_of_In. eapply list_elem_of_lookup_2.
      apply list_lookup_insert_eq. eapply lookup_lt_Some; eauto.
    + rewrite assoc_get_set_ne by discriminate. exact Hid.
    + apply assoc_get_set_eq.
  - injection H as <-. exists [("id", userId); ("lastSeen", JNum now)].
    split; [|split; reflexivity].
    apply in_or_app. right. left. reflexivity.
Qed.

(** X7: on every store the backend can reach, a presence update succeeds
    and counts its caller as online: the stored stats list a record with
    the caller's [userId] and [lastSeen = now], and the reported
    [onlineCount], the length of the stored list, is at least 1. *)
Theorem presence_counts_caller (now : Z) (fs : list (string * jsval)) (s : kvstore) :
  reachable s ->
  exists stats2 kept,
    (presence now (JObj fs) s).2 = <["chat_stats" := stats2]> s /\
    prop stats2 "onlineUsers" = JArr kept /\
    (presence now (JObj fs) s).1 =
      ok_json [("views", prop stats2 "views");
               ("onlineCount", JNum (Z.of_nat (length kept)))] /\
    (exists u, In u kept /\ prop u "id" = prop (JObj fs) "userId" /\
               prop u "lastSeen" = JNum now) /\
    (1 <= length kept)%nat.
Proof.
  intros Hr. pose proof (reachable_stats_ok s Hr) as Hs.
  destruct (stats_value s Hs) as (sfs & us & Hst & Hv & Hu & Hf).
  destruct (presence_stats_ok now (prop (JObj fs) "userId") (prop (JObj fs) "isNewVisit")
              sfs _ us Hv Hu Hf) as (d & cnt & Hp & _ & _).
  assert (H200 : status (presence now (JObj fs) s).1 = 200).
  { cbn [presence]. rewrite Hst, Hp. reflexivity. }
  destruct (presence_success now fs s H200)
    as (stats1 & us0 & us1 & kept & stats2 & Hv1 & Hou & Ht & Hk & Hset & Heq).
  rewrite Hst in Hv1.
  pose proof (views_step_online _ _ _ Hv1) as Ho. cbn [prop] in Ho.
  rewrite Hou, Hu in Ho. injection Ho as ->.
  destruct (touch_caller _ _ _ _ Hf Ht) as (f & Hin & Hid & Hls).
  assert (Hkin : In (JObj f) kept).
  { apply (res_filter_spec _ _ _ Hk). split; [exact Hin|].
    unfold in_window. cbn. rewrite Hls. cbn. rewrite Z.sub_diag. reflexivity. }
  exists stats2, kept. rewrite Heq. split; [reflexivity|]. split.
  - apply (set_prop_ok_same stats1 _ _ _); [rewrite Hou; discriminate|exact Hset].
  - split; [reflexivity|]. split.
    + exists (JObj f). split; [exact Hkin|]. split; [exact Hid|exact Hls].
    + destruct kept; [contradiction|]. cbn. lia.
Qed.

(** X8: the leave beacon [onUnload] sends, [{ userId, leave: true }], is
    handled exactly as a heartbeat [{ userId }]: the backend reads no
    [leave] field, so it refreshes the caller's [lastSeen] instead of
    removing the caller from the online list. *)
Theorem leave_beacon_is_heartbeat (now : Z) (userId : jsval) (s : kvstore) :
  presence now (JObj [("userId", userId); ("leave", JBool true)]) s =
  presence now (JObj [("userId", userId)]) s.
Proof. reflexivity. Qed.

(** X9: on every store the backend can reach, a stats read succeeds,
    reports the stored view count (0 before any visit) and writes
    nothing. *)
Theorem get_stats_reports_views (now : Z) (s : kvstore) :
  reachable s ->
  exists n, get_stats now s =
    (ok_json [("views", JNum (view_count s)); ("onlineCount", JNum (Z.of_nat n))], s).
Proof.
  intros Hr. pose proof (reachable_stats_ok s Hr) as Hs.
  destruct (stats_value s Hs) as (sfs & us & Hst & Hv & Hu & Hf).
  destruct (filter_objs now us Hf) as [kept [Hk _]].
  exists (length kept). unfold get_stats. rewrite Hst.
  cbn [get_prop prop res_bind]. rewrite Hu. cbn [js_or truthy].
  rewrite Hk. cbn [res_bind set_prop prop].
  rewrite assoc_get_set_ne by discriminate. rewrite Hv. reflexivity.
Qed.

(** ** [hexToRgba] *)

Lemma hex_val_not_space (c : ascii) (d : Z) :
  hex_val c = Some d -> Ascii.is_space c = false.
Proof.
  destruct c as [[] [] [] [] [] [] [] []]; cbn; intros H;
    solve [reflexivity | discriminate H].
Qed.

Lemma hex_not_hash (c : ascii) (d : Z) (r h : list ascii) :
  hex_val c = Some d ->
  match c :: r with "#"%char :: r' => r' | _ => h end = h.
Proof.
  destruct c as [[] [] [] [] [] [] [] []]; cbn; intros H;
    solve [reflexivity | discriminate H].
Qed.

Lemma hex_to_rgba_six (c1 c2 c3 c4 c5 c6 : ascii) (d1 d2 d3 d4 d5 d6 : Z) (alpha : string) :
  hex_val c1 = Some d1 -> hex_val c2 = Some d2 -> hex_val c3 = Some d3 ->
  hex_val c4 = Some d4 -> hex_val c5 = Some d5 -> hex_val c6 = Some d6 ->
  Ascii.is_space c1 = false -> Ascii.is_space c6 = false ->
  let out := "rgba(" +:+ pretty (d1 * 16 + d2) +:+ ", " +:+ pretty (d3 * 16 + d4) +:+
             ", " +:+ pretty (d5 * 16 + d6) +:+ ", " +:+ alpha +:+ ")" in
  hex_to_rgba (JStr (String "#" (String c1 (String c2 (String c3 (String c4
                 (String c5 (String c6 EmptyString)))))))) alpha = out /\
  hex_to_rgba (JStr (String c1 (String c2 (String c3 (String c4
                 (String c5 (String c6 EmptyString))))))) alpha = out.
Proof.
  intros H1 H2 H3 H4 H5 H6 S1 S6 out.
  assert (Ht : forall l, l = [c1; c2; c3; c4; c5; c6] \/ l = "#"%char :: [c1; c2; c3; c4; c5; c6] ->
                 js_trim (string_of_list_ascii l) = string_of_list_ascii l).
  { intros l Hl. unfold js_trim. rewrite list_ascii_of_string_of_list_ascii.
    destruct Hl as [->| ->]; cbn [drop_space];
      [rewrite S1|change (Ascii.is_space "#"%char) with false];
      cbn [rev app drop_space]; rewrite S6; reflexivity. }
  pose proof (Ht _ (or_introl eq_refl)) as T1. pose proof (Ht _ (or_intror eq_refl)) as T2.
  cbn [string_of_list_ascii] in T1, T2.
  unfold hex_to_rgba. cbn [String.eqb]. rewrite T1, T2.
  cbn [list_ascii_of_string]. rewrite (hex_not_hash c1 d1 _ _ H1).
  cbn [length Nat.eqb].
  unfold is_hex. cbn [forallb firstn skipn]. rewrite H1, H2, H3, H4, H5, H6.
  cbn [andb parse_int16 hex_digits fst].
  rewrite H1, H2, H3, H4, H5, H6. cbn [hex_digits fst num_text].
  unfold out. rewrite !Z.mul_0_l, !Z.add_0_l. split; reflexivity.
Qed.

Lemma hex_to_rgba_three (c1 c2 c3 : ascii) (d1 d2 d3 : Z) (alpha : string) :
  hex_val c1 = Some d1 -> hex_val c2 = Some d2 -> hex_val c3 = Some d3 ->
  Ascii.is_space c3 = false ->
  hex_to_rgba (JStr (String "#" (String c1 (String c2 (String c3 EmptyString))))) alpha =
  "rgba(" +:+ pretty (d1 * 16 + d1) +:+ ", " +:+ pretty (d2 * 16 + d2) +:+
  ", " +:+ pretty (d3 * 16 + d3) +:+ ", " +:+ alpha +:+ ")".
Proof.
  intros H1 H2 H3 S3.
  assert (T : js_trim (String "#" (String c1 (String c2 (String c3 EmptyString)))) =
              String "#" (String c1 (String c2 (String c3 EmptyString)))).
  { unfold js_trim. cbn [list_ascii_of_string drop_space].
    change (Ascii.is_space "#"%char) with false.
    cbn [rev app drop_space]. rewrite S3. reflexivity. }
  unfold hex_to_rgba. cbn [String.eqb]. rewrite T.
  cbn [list_ascii_of_string length Nat.eqb flat_map app].
  unfold is_hex. cbn [forallb firstn skipn]. rewrite H1, H2, H3.
  cbn [andb parse_int16 hex_digits fst].
  rewrite H1, H2, H3. cbn [hex_digits fst num_text].
  rewrite !Z.mul_0_l, !Z.add_0_l. reflexivity.
Qed.

(** X10: [hexToRgba] decodes every six-digit hex color, each digit one
    of 0-9, a-f or A-F independently (so in mixed case too), with or
    without the leading [#], into its three bytes, and the short form
    [#rgb] as [#rrggbb]. *)
Theorem hex_to_rgba_decodes (c1 c2 c3 c4 c5 c6 : ascii) (d1 d2 d3 d4 d5 d6 : Z)
    (alpha : string) :
  hex_val c1 = Some d1 -> hex_val c2 = Some d2 -> hex_val c3 = Some d3 ->
  hex_val c4 = Some d4 -> hex_val c5 = Some d5 -> hex_val c6 = Some d6 ->
  let out := "rgba(" +:+ pretty (d1 * 16 + d2) +:+ ", " +:+ pretty (d3 * 16 + d4) +:+
             ", " +:+ pretty (d5 * 16 + d6) +:+ ", " +:+ alpha +:+ ")" in
  hex_to_rgba (JStr (String "#" (String c1 (String c2 (String c3 (String c4
                 (String c5 (String c6 EmptyString)))))))) alpha = out /\
  hex_to_rgba (JStr (String c1 (String c2 (String c3 (String c4
                 (String c5 (String c6 EmptyString))))))) alpha = out /\
  hex_to_rgba (JStr (String "#" (String c1 (String c2 (String c3 EmptyString))))) alpha =
  "rgba(" +:+ pretty (17 * d1) +:+ ", " +:+ pretty (17 * d2) +:+ ", " +:+
  pretty (17 * d3) +:+ ", " +:+ alpha +:+ ")".
Proof.
  intros H1 H2 H3 H4 H5 H6 out.
  destruct (hex_to_rgba_six c1 c2 c3 c4 c5 c6 d1 d2 d3 d4 d5 d6 alpha H1 H2 H3 H4 H5 H6
              (hex_val_not_space c1 d1 H1) (hex_val_not_space c6 d6 H6)) as [E1 E2].
  split; [exact E1|split; [exact E2|]].
  rewrite (hex_to_rgba_three c1 c2 c3 d1 d2 d3 alpha H1 H2 H3 (hex_val_not_space c3 d3 H3)).
  replace (17 * d1) with (d1 * 16 + d1) by lia.
  replace (17 * d2) with (d2 * 16 + d2) by lia.
  replace (17 * d3) with (d3 * 16 + d3) by lia. reflexivity.
Qed.

(** ** The style of message bubbles *)

Lemma prefix_app (p x : string) : String.prefix p (p +:+ x) = true.
Proof.
  induction p as [|a p IH]; cbn; [destruct x; reflexivity|].
  destruct (ascii_dec a a); [exact IH|contradiction].
Qed.

Lemma msg_key_prefix (id : jsval) : String.prefix "msg_" (msg_key id) = true.
Proof. apply prefix_app. Qed.

Lemma plain_msgs_insert (s : kvstore) (key : string) (d : jsval) :
  plain_msgs s -> plain_msg_doc d -> plain_msgs (<[key := d]> s).
Proof.
  intros Hs Hd k d' Hk Hl. destruct (decide (key = k)) as [<-|Hne].
  - rewrite lookup_insert_eq in Hl. injection Hl as <-. exact Hd.
  - rewrite lookup_insert_ne in Hl by exact Hne. exact (Hs k d' Hk Hl).
Qed.

Lemma handle_plain_msgs (rq : request) (s : kvstore) :
  plain_msgs s -> plain_msgs (handle rq s).2.
Proof.
  intros Hs.
  destruct rq as [|b|b|now b|ok| |b|now|now b|ok].
  2: { cbn [handle]. destruct b; try exact Hs; cbn [create_message snd];
       apply plain_msgs_insert; try exact Hs;
       (eexists; split; [reflexivity|repeat split; reflexivity]). }
  2: { cbn [handle]. destruct (delete_messages_store b s) as [->|[xs ->]]; [exact Hs|].
       intros k d Hk Hl. rewrite kv_mdel_lookup in Hl.
       destruct (decide _); [discriminate Hl|exact (Hs k d Hk Hl)]. }
  2: { cbn [handle].
       destruct (Z.eq_dec (status (edit_message now b s).1) 200) as [H|H].
       - destruct (edit_message_success now b s H) as (t & ofs & _ & _ & Hl & _ & ->).
         cbn [snd]. apply plain_msgs_insert; [exact Hs|].
         destruct (Hs _ _ (msg_key_prefix _) Hl) as (fs & Hfs & H1 & H2 & H3).
         injection Hfs as <-. unfold edited_doc. eexists; split; [reflexivity|].
         rewrite !assoc_get_set_ne by discriminate. repeat split; assumption.
       - replace (edit_message now b s).2 with s; [exact Hs|].
         revert H. unfold edit_message, kv_set. repeat case_match; simpl; congruence. }
  all: intros k d Hk Hl; rewrite handle_other_msg_lookup in Hl by (discriminate || exact Hk);
       exact (Hs k d Hk Hl).
Qed.

Lemma reachable_plain_msgs (s : kvstore) : reachable s -> plain_msgs s.
Proof.
  induction 1 as [|rq s _ IH].
  - intros k d _ Hl. rewrite lookup_empty in Hl. discriminate.
  - apply handle_plain_msgs, IH.
Qed.

(** X11: on every store the backend can reach, every message of the listing
    is drawn with the default bubble [rgba(0, 58, 33, 0.8)], the default
    name color [#ebef00] and without the [(ред.)] marker: the stored
    documents never carry [messageBackground], [nameColor] or [edited],
    whatever colors the sender chose and whether or not it was edited. *)
Theorem listed_bubbles_default (s : kvstore) (m : jsval) :
  reachable s -> In m (listed_messages s) ->
  bubble_style m = ("rgba(0, 58, 33, 0.8)", JStr "#ebef00", false).
Proof.
  intros Hr Hm.
  pose proof (kv_getByPrefix_forall plain_msg_doc "msg_" s
                (fun k v Hl Hk => reachable_plain_msgs s Hr k v Hk Hl)) as Hall.
  unfold listed_messages in Hm.
  apply list_elem_of_In in Hm. rewrite (js_sort_perm _) in Hm.
  destruct (proj1 (Forall_forall _ _) Hall m Hm) as (fs & -> & H1 & H2 & H3).
  unfold bubble_style. cbn [prop]. rewrite H1, H2, H3. reflexivity.
Qed.

(** ** Sending a message *)

Lemma js_or_null_idem (x : jsval) : js_or (js_or x JNull) JNull = js_or x JNull.
Proof. unfold js_or. destruct (truthy x) eqn:E; [rewrite E|]; reflexivity. Qed.

(** X12: [sendMessage] posts only a trimmed input that is neither empty nor
    one of the commands [setbg] and [settheme]; the backend then stores
    it under [msg_<Date.now()>] with the trimmed text, the sender's
    display name, the timestamp and the replied-to id, with no file
    fields, and drops the colors. *)
Theorem send_message_stored (inputText displayName : string) (idNow tsNow : Z)
    (replyingTo : option jsval) (isLoggedInUser : bool)
    (nameColor messageBackground : string) (body : jsval) (s : kvstore) :
  send_message inputText displayName idNow tsNow replyingTo isLoggedInUser
    nameColor messageBackground = PostMessage body ->
  js_trim inputText <> EmptyString /\ js_trim inputText <> "setbg" /\
  js_trim inputText <> "settheme" /\
  (create_message body s).2 !! ("msg_" +:+ pretty idNow) =
    Some (JObj [("id", JStr (pretty idNow));
                ("username", JStr displayName);
                ("text", JStr (js_trim inputText));
                ("timestamp", JNum tsNow);
                ("replyTo", match replyingTo with
                            | Some m => js_or (prop m "id") JNull
                            | None => JNull
                            end);
                ("fileUrl", JNull); ("fileType", JNull); ("fileName", JNull)]).
Proof.
  unfold send_message.
  destruct (String.eqb_spec (js_trim inputText) EmptyString) as [|H1]; [discriminate|].
  destruct (String.eqb_spec (js_trim inputText) "setbg") as [|H2]; [discriminate|].
  destruct (String.eqb_spec (js_trim inputText) "settheme") as [|H3]; [discriminate|].
  intros H. injection H as <-. split; [exact H1|]. split; [exact H2|]. split; [exact H3|].
  cbn [create_message snd]. unfold kv_set, msg_key. cbn [prop assoc_get String.eqb Ascii.eqb Bool.eqb js_to_string].
  rewrite lookup_insert_eq. unfold message_doc. cbn [prop assoc_get String.eqb Ascii.eqb Bool.eqb].
  do 3 f_equal.
  destruct replyingTo as [m|]; [rewrite js_or_null_idem|]; reflexivity.
Qed.

Lemma send_message_stored_witness :
  (create_message
     (JObj [("id", JStr "5"); ("username", JStr "ann"); ("text", JStr "hi");
            ("timestamp", JNum 6); ("replyTo", JNull); ("nameColor", JStr "#fff");
            ("messageBackground", JStr "#000")]) ∅).2 !! "msg_5" =
  Some (JObj [("id", JStr "5"); ("username", JStr "ann"); ("text", JStr "hi");
              ("timestamp", JNum 6); ("replyTo", JNull);
              ("fileUrl", JNull); ("fileType", JNull); ("fileName", JNull)]).
Proof.
  destruct (send_message_stored " hi " "ann" 5 6 None true "#fff" "#000"
              (JObj [("id", JStr "5"); ("username", JStr "ann"); ("text", JStr "hi");
                     ("timestamp", JNum 6); ("replyTo", JNull); ("nameColor", JStr "#fff");
                     ("messageBackground", JStr "#000")]) ∅ ltac:(vm_compute; reflexivity))
    as (_ & _ & _ & H).
  exact H.
Defined.

(** ** Uploads *)

Lemma split_dot_nonempty (s : string) : exists w ws, split_dot s = w :: ws.
Proof.
  induction s as [|c s [w [ws IH]]]; cbn [split_dot]; [eauto|].
  rewrite IH. destruct (Ascii.eqb c "."); eauto.
Qed.

Lemma split_dot_app (a b : string) :
  split_dot (a +:+ String "." b) = split_dot a ++ split_dot b.
Proof.
  induction a as [|c a IH]; cbn [String.append split_dot].
  - destruct (split_dot_nonempty b) as [w [ws ->]]. reflexivity.
  - rewrite IH. destruct (split_dot_nonempty a) as [w [ws ->]]. cbn [app].
    destruct (Ascii.eqb c "."); reflexivity.
Qed.

Lemma split_dot_nodot (s : string) : break_char "."%char s = None -> split_dot s = [s].
Proof.
  induction s as [|c s IH]; cbn [break_char split_dot]; [reflexivity|].
  destruct (Ascii.eqb c "."); [discriminate|].
  destruct (break_char "."%char s) as [[]|]; [discriminate|]. intros _.
  rewrite IH by reflexivity. reflexivity.
Qed.

(** X13: the stored object's extension is the text after the last dot of
    the uploaded file's name, or the whole name when it has no dot: a
    file [base.ext] is stored as [<now>_<random>.ext] (and a background
    as [bg_<now>.ext]); a file [name] without a dot as
    [<now>_<random>.name]. *)
Theorem upload_object_names (now : Z) (rand base ext name : string) :
  break_char "."%char ext = None ->
  break_char "."%char name = None ->
  upload_object_name now rand (base +:+ "." +:+ ext) =
    pretty now +:+ "_" +:+ rand +:+ "." +:+ ext /\
  background_object_name now (base +:+ "." +:+ ext) = "bg_" +:+ pretty now +:+ "." +:+ ext /\
  upload_object_name now rand name = pretty now +:+ "_" +:+ rand +:+ "." +:+ name.
Proof.
  intros He Hn.
  assert (Hx : file_ext (base +:+ "." +:+ ext) = ext).
  { unfold file_ext. cbn [String.append]. rewrite split_dot_app, (split_dot_nodot ext He).
    apply List.last_last. }
  unfold upload_object_name, background_object_name. rewrite Hx.
  split; [reflexivity|]. split; [reflexivity|].
  unfold file_ext. rewrite (split_dot_nodot name Hn). reflexivity.
Qed.

Lemma upload_object_names_witness :
  upload_object_name 17 "k2x" "cat.photo.png" = "17_k2x.png" /\
  upload_object_name 17 "k2x" "README" = "17_k2x.README".
Proof.
  destruct (upload_object_names 17 "k2x" "cat.photo" "png" "README" eq_refl eq_refl)
    as (H1 & _ & H2).
  split; [exact H1|exact H2].
Defined.

(** ** Selecting messages for deletion *)

(** X14: [toggleSelectMessage] flips the selection of its message only, so
    toggling the same message twice restores the selection. *)
Theorem toggle_select_flips (id : string) (sel : gset string) :
  (id ∈ toggle_select id sel <-> id ∉ sel) /\
  (forall x, x <> id -> x ∈ toggle_select id sel <-> x ∈ sel) /\
  toggle_select id (toggle_select id sel) = sel.
Proof.
  unfold toggle_select.
  destruct (decide (id ∈ sel)) as [Hin|Hout]; split; [set_solver| |set_solver|].
  - split; [set_solver|].
    rewrite decide_False by set_solver. apply set_eq. intros x.
    destruct (decide (x = id)) as [->|]; set_solver.
  - split; [set_solver|].
    rewrite decide_True by set_solver. apply set_eq. intros x.
    destruct (decide (x = id)) as [->|]; set_solver.
Qed.

(** ** File links *)

Lemma strip_prefix_self (p x : string) : strip_prefix p (p +:+ x) = Some x.
Proof.
  induction p as [|a p IH]; cbn; [reflexivity|].
  rewrite Ascii.eqb_refl. exact IH.
Qed.

Lemma break_char_first (c : ascii) (x y : string) :
  break_char c x = None -> break_char c (x +:+ String c y) = Some (x, y).
Proof.
  induction x as [|a x IH]; cbn [break_char String.append].
  - rewrite Ascii.eqb_refl. reflexivity.
  - destruct (Ascii.eqb a c); [discriminate|].
    destruct (break_char c x) as [[]|]; [discriminate|]. intros _.
    rewrite IH by reflexivity. reflexivity.
Qed.

Lemma break_char_hit (c : ascii) (x y : string) : break_char c (x +:+ String c y) <> None.
Proof.
  induction x as [|a x IH]; cbn [break_char String.append].
  - rewrite Ascii.eqb_refl. discriminate.
  - destruct (Ascii.eqb a c); [discriminate|].
    destruct (break_char c (x +:+ String c y)) as [[]|]; [discriminate|contradiction].
Qed.

Lemma file_link_at_spec (s n r : string) :
  file_link_at s = Some (n, r) ->
  s = file_link_text n +:+ r /\ break_char "]"%char n = None /\ n <> EmptyString.
Proof.
  unfold file_link_at. destruct (strip_prefix file_open s) as [r1|] eqn:E1; [|discriminate].
  destruct (break_char "]"%char r1) as [[n' r']|] eqn:E2; [|discriminate].
  destruct (break_char_spec _ _ _ _ E2) as [Hr1 Hn].
  destruct n' as [|a n'']; [discriminate|]. intros H. injection H as <- <-.
  split; [|split; [exact Hn|discriminate]].
  rewrite (strip_prefix_spec _ _ _ E1), Hr1. unfold file_link_text.
  rewrite !str_app_assoc. reflexivity.
Qed.


Lemma find_file_link_spec (s b n r : string) :
  find_file_link s = Some (b, n, r) ->
  s = b +:+ file_link_text n +:+ r /\ break_char "]"%char n = None /\ n <> EmptyString.
Proof.
  revert b. induction s as [|a s IH]; intros b H; cbn [find_file_link] in H;
    destruct (file_link_at _) as [[n' r']|] eqn:Ea.
  - vm_compute in Ea. discriminate.
  - discriminate.
  - injection H as <- <- <-. destruct (file_link_at_spec _ _ _ Ea) as (-> & ? & ?).
    split; [reflexivity|split; assumption].
  - destruct (find_file_link s) as [[[b' n1] r1]|] eqn:E; [|discriminate].
    injection H as <- <- <-. destruct (IH b' eq_refl) as (Hs & Hn & Hne).
    split; [cbn; now f_equal|]. split; assumption.
Qed.



Lemma pieces_text_app (ps qs : list link_piece) :
  pieces_text (ps ++ qs) = pieces_text ps +:+ pieces_text qs.
Proof.
  induction ps as [|p ps IH]; [reflexivity|].
  cbn [app pieces_text]. rewrite IH, str_app_assoc. reflexivity.
Qed.

Lemma link_loop_spec (fileUrl fileName : jsval) (fuel : nat) (s : string) :
  pieces_text (link_loop fileUrl fileName fuel s) = s /\
  (forall n, In (LFile n) (link_loop fileUrl fileName fuel s) ->
     truthy fileUrl = true /\ fileName = JStr n /\
     break_char "]"%char n = None /\ n <> EmptyString).
Proof.
  revert s. induction fuel as [|f IH]; intros s.
  - destruct s; cbn; (split; [try rewrite str_app_nil_r; reflexivity|]);
      intros n H; cbn in H; intuition discriminate.
  - cbn [link_loop].
    destruct (find_file_link s) as [[[b n] r]|] eqn:E.
    + destruct (find_file_link_spec _ _ _ _ E) as (Hs & Hn & Hne).
      destruct (IH r) as [Hj Hin]. split.
      * rewrite pieces_text_app. cbn [pieces_text]. rewrite Hj, Hs.
        assert (Hp : piece_text (link_piece_of fileUrl fileName n) = file_link_text n).
        { unfold link_piece_of. destruct (_ && _); reflexivity. }
        rewrite Hp. destruct b; cbn [pieces_text piece_text]; [reflexivity|].
        rewrite str_app_nil_r. reflexivity.
      * intros n' H. apply in_app_or in H as [H|[H|H]].
        -- destruct b; cbn in H; intuition discriminate.
        -- unfold link_piece_of in H.
           destruct (truthy fileUrl) eqn:Hu; [|discriminate H].
           destruct (strict_eq fileName (JStr n)) eqn:Hf; [|discriminate H].
           injection H as <-. apply strict_eq_true in Hf. repeat split; assumption.
        -- now apply Hin.
    + destruct s; cbn; (split; [try rewrite str_app_nil_r; reflexivity|]);
        intros n' H; cbn in H; intuition discriminate.
Qed.

(** X15: the file-link pass over a text part loses and reorders nothing
    (putting each embedded attachment back as its [[file:name]] link gives
    the part again), and it embeds the attachment only for a link naming
    exactly the message's [fileName] (a non-empty name without []]) when
    the message has a [fileUrl]. *)
Theorem link_pieces_spec (fileUrl fileName : jsval) (part : string) :
  pieces_text (link_pieces fileUrl fileName part) = part /\
  (forall n, In (LFile n) (link_pieces fileUrl fileName part) ->
     truthy fileUrl = true /\ fileName = JStr n /\
     break_char "]"%char n = None /\ n <> EmptyString).
Proof.
  destruct (link_loop_spec fileUrl fileName (S (String.length part)) part) as [Hj Hf].
  unfold link_pieces.
  destruct (link_loop fileUrl fileName (S (String.length part)) part) as [|p ps] eqn:E.
  - split; [cbn; apply str_app_nil_r|]. intros n H. cbn in H. intuition discriminate.
  - split; [exact Hj|exact Hf].
Qed.



(** X17: an attachment whose file name contains []] is shown nowhere once
    its link is in the text: not under the text (the text contains the
    link), not in place of a link in a text part and not inside a spoiler,
    because a matched link name never contains []]. *)
Theorem bracket_file_hidden (text name : string) (fileUrl : jsval) :
  break_char "]"%char name <> None ->
  js_includes (file_link_text name) text = true ->
  attachment_below text fileUrl (JStr name) = false /\
  (forall u, In (Text u) (spoiler_parts text) ->
     forall n, ~ In (LFile n) (link_pieces fileUrl (JStr name) u)) /\
  (forall t c, In (Spoiler t c) (spoiler_parts text) ->
     spoiler_shows_file fileUrl (JStr name) c = false).
Proof.
  intros Hn Hinc. split; [|split].
  - unfold attachment_below. cbn [js_to_string]. fold (file_link_text name).
    rewrite Hinc. apply andb_false_r.
  - intros u _ n Hin.
    destruct (proj2 (link_pieces_spec fileUrl (JStr name) u) n Hin) as (_ & Heq & Hb & _).
    injection Heq as ->. contradiction.
  - intros t c _. unfold spoiler_shows_file.
    destruct (find_file_link c) as [[[b n] r]|] eqn:E; [|reflexivity].
    destruct (find_file_link_spec _ _ _ _ E) as (_ & Hb & _).
    destruct (strict_eq (JStr name) (JStr n)) eqn:Hs; [|reflexivity].
    apply strict_eq_true in Hs. injection Hs as ->. contradiction.
Qed.

Lemma bracket_file_hidden_witness :
  attachment_below "see [file:a]b.png]" (JStr "https://x/f") (JStr "a]b.png") = false.
Proof.
  exact (proj1 (bracket_file_hidden "see [file:a]b.png]" "a]b.png" (JStr "https://x/f")
                  ltac:(discriminate) ltac:(vm_compute; reflexivity))).
Defined.

(** ** Spoilers written with the toolbar button *)

Lemma strip_prefix_app_cases (p x y r : string) :
  strip_prefix p (x +:+ y) = Some r ->
  (exists r', strip_prefix p x = Some r') \/
  (exists w, p = x +:+ w /\ w <> EmptyString /\ strip_prefix w y = Some r).
Proof.
  revert x. induction p as [|a p IH]; intros x H.
  - left. eexists. reflexivity.
  - destruct x as [|b x].
    + right. exists (String a p). split; [reflexivity|]. split; [discriminate|exact H].
    + cbn [String.append strip_prefix] in H |- *.
      destruct (Ascii.eqb_spec a b) as [->|]; [|discriminate].
      destruct (IH x H) as [Hl|[w (Hw & Hne & Hs)]]; [left; exact Hl|].
      right. exists w. split; [cbn; now f_equal|]. split; assumption.
Qed.

(** The first occurrence of a closing [p] whose first character does not
    occur again in [p]. *)
Lemma break_str_close (p c v : string) (a : ascii) (p' : string) :
  p = String a p' -> break_char a p' = None -> break_str p c = None ->
  break_str p (c +:+ p +:+ v) = Some (c, v).
Proof.
  intros Hp Ha. induction c as [|b c IH]; intros Hc.
  - rewrite break_str_unfold. cbn [String.append]. rewrite strip_prefix_self. reflexivity.
  - rewrite break_str_unfold in Hc. rewrite break_str_unfold.
    destruct (strip_prefix p (String b c)) eqn:E1; [discriminate|].
    destruct (break_str p c) as [[]|] eqn:E2; [discriminate|].
    assert (Hn : strip_prefix p (String b c +:+ p +:+ v) = None).
    { destruct (strip_prefix p (String b c +:+ p +:+ v)) as [r|] eqn:E3; [|reflexivity].
      exfalso. subst p. cbn [String.append strip_prefix] in E1, E3.
      destruct (Ascii.eqb_spec a b) as [<-|]; [|discriminate].
      destruct (strip_prefix_app_cases p' c _ r E3) as [[r' Hl]|[w (Hw & Hne & Hs)]].
      - congruence.
      - destruct w as [|d w]; [contradiction|]. cbn [String.append strip_prefix] in Hs.
        destruct (Ascii.eqb_spec d a) as [->|]; [|discriminate].
        apply (break_char_hit a c w). rewrite <- Hw. exact Ha. }
    cbn [String.append] in Hn |- *. rewrite Hn. rewrite (IH eq_refl). reflexivity.
Qed.

Lemma spoiler_at_nobracket (a : ascii) (s : string) :
  Ascii.eqb a "["%char = false -> spoiler_at (String a s) = None.
Proof.
  intros Ha. unfold spoiler_at, spoiler_open. cbn [strip_prefix].
  rewrite Ascii.eqb_sym, Ha. reflexivity.
Qed.

Lemma find_spoiler_skip (u w : string) :
  break_char "["%char u = None ->
  find_spoiler (u +:+ w) =
  match find_spoiler w with
  | Some (b, t, c, r) => Some (u +:+ b, t, c, r)
  | None => None
  end.
Proof.
  induction u as [|a u IH]; intros Hu.
  - cbn [String.append]. destruct (find_spoiler w) as [[[[b t] c] r]|]; reflexivity.
  - cbn [break_char] in Hu. destruct (Ascii.eqb a "["%char) eqn:Ha; [discriminate|].
    destruct (break_char "["%char u) as [[]|]; [discriminate|].
    cbn [String.append find_spoiler]. rewrite (spoiler_at_nobracket a _ Ha).
    rewrite IH by reflexivity.
    destruct (find_spoiler w) as [[[[b t] c] r]|]; reflexivity.
Qed.

Lemma spoiler_at_toolbar (t c v : string) :
  break_char "]"%char t = None -> break_str spoiler_close c = None ->
  spoiler_at (toolbar_spoiler t c +:+ v) = Some (t, c, v).
Proof.
  intros Ht Hc. unfold spoiler_at, toolbar_spoiler.
  rewrite !str_app_assoc, strip_prefix_self. cbn [String.append].
  rewrite (break_char_first _ _ _ Ht).
  rewrite (break_str_close spoiler_close c v "["%char "/spoiler]" eq_refl eq_refl Hc).
  reflexivity.
Qed.

Lemma spoiler_loop_fuel (f g : nat) (s : string) :
  (String.length s < f)%nat -> (String.length s < g)%nat ->
  spoiler_loop f s = spoiler_loop g s.
Proof.
  revert g s. induction f as [|f IH]; intros g s Hf Hg; [lia|].
  destruct g as [|g]; [lia|]. cbn [spoiler_loop].
  destruct (find_spoiler s) as [[[[b t] c] r]|] eqn:E; [|reflexivity].
  destruct (find_spoiler_spec _ _ _ _ _ E) as (Hs & _).
  assert (Hl : (String.length r < String.length s)%nat).
  { rewrite Hs. cbn [part_text]. rewrite !str_length_app. cbn. lia. }
  rewrite (IH g r) by lia. reflexivity.
Qed.

Lemma spoiler_loop_nonempty (f : nat) (s : string) :
  s <> EmptyString -> spoiler_loop f s <> [].
Proof.
  intros Hs. destruct f as [|f]; cbn [spoiler_loop].
  - destruct s; [contradiction|discriminate].
  - destruct (find_spoiler s) as [[[[b t] c] r]|].
    + intros H. apply app_eq_nil in H as [_ H]. discriminate H.
    + destruct s; [contradiction|discriminate].
Qed.

(** X18: a spoiler written with the toolbar button ([[spoiler:title]] when
    opened, [[/spoiler]] when closed) around typed content is parsed back
    as one spoiler block with that title and content, between the text
    before it and the parts of the text after it, provided the title has
    no []], the content no [[/spoiler]] and the text before it no [[]. *)
Theorem toolbar_spoiler_parsed (u title typed v : string) :
  break_char "["%char u = None -> break_char "]"%char title = None ->
  break_str spoiler_close typed = None ->
  spoiler_parts (u +:+ toolbar_spoiler title typed +:+ v) =
  match u with EmptyString => [] | _ => [Text u] end ++
  Spoiler title typed ::
  match v with EmptyString => [] | _ => spoiler_parts v end.
Proof.
  intros Hu Ht Hc.
  assert (Hf : find_spoiler (u +:+ toolbar_spoiler title typed +:+ v) =
               Some (u, title, typed, v)).
  { rewrite (find_spoiler_skip _ _ Hu).
    destruct (toolbar_spoiler title typed +:+ v) eqn:Ew.
    - unfold toolbar_spoiler, spoiler_open in Ew. discriminate Ew.
    - cbn [find_spoiler]. rewrite <- Ew, (spoiler_at_toolbar _ _ _ Ht Hc).
      rewrite str_app_nil_r. reflexivity. }
  destruct (find_spoiler_spec _ _ _ _ _ Hf) as (Hs & _).
  assert (Hl : (String.length v < String.length (u +:+ toolbar_spoiler title typed +:+ v))%nat).
  { rewrite !str_length_app. unfold toolbar_spoiler. rewrite !str_length_app. cbn. lia. }
  unfold spoiler_parts at 1. cbn [spoiler_loop]. rewrite Hf.
  rewrite (spoiler_loop_fuel _ (S (String.length v)) v) by lia.
  destruct (match u with EmptyString => [] | _ => [Text u] end ++ _) eqn:E.
  - apply app_eq_nil in E as [_ E]. discriminate E.
  - rewrite <- E. f_equal. f_equal.
    destruct v as [|a v'] eqn:Hv.
    + reflexivity.
    + unfold spoiler_parts.
      destruct (spoiler_loop (S (String.length (String a v'))) (String a v')) eqn:E2;
        [|reflexivity].
      exfalso. apply (spoiler_loop_nonempty (S (String.length (String a v'))) (String a v'));
        [discriminate|exact E2].
Qed.

Lemma toolbar_spoiler_parsed_witness :
  spoiler_parts ("hi " +:+ toolbar_spoiler "plot" "he wins" +:+ " bye") =
  [Text "hi "; Spoiler "plot" "he wins"; Text " bye"].
Proof.
  rewrite (toolbar_spoiler_parsed "hi " "plot" "he wins" " bye" eq_refl eq_refl
             ltac:(vm_compute; reflexivity)).
  vm_compute. reflexivity.
Defined.

Definition w_colored_body : jsval :=
  JObj [("id", JStr "7"); ("username", JStr "ann"); ("text", JStr "hi");
        ("timestamp", JNum 7); ("replyTo", JNull); ("nameColor", JStr "#ff0000");
        ("messageBackground", JStr "#0000ff")].

Lemma listed_bubbles_default_witness :
  bubble_style (message_doc w_colored_body) =
  ("rgba(0, 58, 33, 0.8)", JStr "#ebef00", false).
Proof.
  apply (listed_bubbles_default (handle (CreateMessage w_colored_body) ∅).2).
  - apply reach_step, reach_init.
  - vm_compute. left. reflexivity.
Defined.

Lemma presence_counts_caller_witness :
  status (presence 5 (JObj [("userId", JStr "u")]) ∅).1 = 200.
Proof.
  destruct (presence_counts_caller 5 [("userId", JStr "u")] ∅ reach_init)
    as (stats2 & kept & _ & _ & H & _).
  rewrite H. reflexivity.
Defined.

Lemma get_stats_reports_views_witness :
  prop (payload (get_stats 9
    (handle (Presence 1 (JObj [("userId", JStr "u"); ("isNewVisit", JBool true)])) ∅).2).1)
    "views" = JNum 1.
Proof.
  destruct (get_stats_reports_views 9
    (handle (Presence 1 (JObj [("userId", JStr "u"); ("isNewVisit", JBool true)])) ∅).2
    (reach_step _ _ reach_init)) as [n H].
  rewrite H. vm_compute. reflexivity.
Defined.

Lemma hex_to_rgba_decodes_witness :
  hex_to_rgba (JStr "#aBcDeF") "0.8" = "rgba(171, 205, 239, 0.8)" /\
  hex_to_rgba (JStr "003a21") "0.8" = "rgba(0, 58, 33, 0.8)" /\
  hex_to_rgba (JStr "#Fa0") "1" = "rgba(255, 170, 0, 1)".
Proof.
  destruct (hex_to_rgba_decodes "a" "B" "c" "D" "e" "F" 10 11 12 13 14 15 "0.8"
              eq_refl eq_refl eq_refl eq_refl eq_refl eq_refl) as (H1 & _ & _).
  destruct (hex_to_rgba_decodes "0" "0" "3" "a" "2" "1" 0 0 3 10 2 1 "0.8"
              eq_refl eq_refl eq_refl eq_refl eq_refl eq_refl) as (_ & H2 & _).
  destruct (hex_to_rgba_decodes "F" "a" "0" "0" "0" "0" 15 10 0 0 0 0 "1"
              eq_refl eq_refl eq_refl eq_refl eq_refl eq_refl) as (_ & _ & H3).
  split; [|split]; [rewrite H1|rewrite H2|rewrite H3]; vm_compute; reflexivity.
Defined.
